(** * Patroni daemon core ([patroni/__init__.py])

    A shallow embedding of the control loop of the Patroni daemon: tag
    derivation, dynamic-configuration bootstrap, configuration reload, the
    drift-corrected scheduler and the pause-aware shutdown sequence.

    The collaborators of the daemon ([Config], the DCS client, [Postgresql],
    [RestApiServer], [Ha], [time], [logging]) live in other modules.  They are
    represented by an environment that answers every call as a function of
    the history of calls issued so far; each call may return or raise, as any
    Python call may.  The daemon's own fields are threaded as explicit state.

    Timestamps and durations of the daemon are exact integers
    (microseconds).  What hangs on the rounding of doubles is stated on
    [schedule_next_run_double], the scheduler with the arithmetic of the
    interpreter. *)

From Stdlib Require Import ZArith String List Lia Floats.
From stdpp Require Import base option list gmap strings fin_maps.

Local Open Scope string_scope.
Local Open Scope list_scope.
Local Open Scope Z_scope.

(** ** Python values *)

(** The values a YAML configuration or a cluster record can hold
    (floats left out). *)
#[warnings="-register-all"]
Inductive PyVal : Type :=
| PyNone
| PyBool (b : bool)
| PyInt (z : Z)
| PyStr (s : string)
| PyList (l : list PyVal)
| PyDict (d : gmap string PyVal).

(** Python truthiness, [bool(v)]. *)
Definition truthy (v : PyVal) : bool :=
  match v with
  | PyNone => false
  | PyBool b => b
  | PyInt z => negb (z =? 0)
  | PyStr s => match s with EmptyString => false | _ => true end
  | PyList l => match l with [] => false | _ => true end
  | PyDict d => negb (Nat.eqb (size d) 0)
  end.

(** ** Exceptions and outcomes *)

(** [DCSError] is patroni's own exception; [KeyError] and [AttributeError]
    come from subscripts and attribute access; [OtherException] stands for
    any other subclass of [Exception].  [KeyboardInterrupt] and [SystemExit]
    derive from [BaseException] only. *)
Inductive exn : Type :=
| DCSError
| KeyError
| AttributeError
| OtherException
| KeyboardInterrupt
| SystemExit.

(** [isinstance(e, Exception)] *)
Definition is_Exception (e : exn) : bool :=
  match e with
  | KeyboardInterrupt | SystemExit => false
  | _ => true
  end.

Definition is_DCSError (e : exn) : bool :=
  match e with DCSError => true | _ => false end.

Definition is_KeyboardInterrupt (e : exn) : bool :=
  match e with KeyboardInterrupt => true | _ => false end.

(** How a call ends: it returns a value or it raises. *)
Inductive answer (A : Type) : Type :=
| Returns (a : A)
| Raises (e : exn).
Arguments Returns {A} a.
Arguments Raises {A} e.

(** The outcome of running a piece of the daemon: it returns, it raises, or
    the fuel given to an unbounded loop ran out before it finished. *)
Inductive outcome (A : Type) : Type :=
| Ok (a : A)
| Raise (e : exn)
| OutOfFuel.
Arguments Ok {A} a.
Arguments Raise {A} e.
Arguments OutOfFuel {A}.

Definition of_answer {A} (a : answer A) : outcome A :=
  match a with
  | Returns x => Ok x
  | Raises e => Raise e
  end.

(** ** Configuration object *)

(** What the daemon reads from [self.config]: the mapping interface over the
    local sections, the cached dynamic configuration and the file name. *)
Record Config : Type := mkConfig {
  local_configuration : gmap string PyVal;
  dynamic_configuration : PyVal;
  config_file : string
}.

(** [config[key]] *)
Definition config_getitem (config : Config) (key : string) : answer PyVal :=
  match local_configuration config !! key with
  | Some v => Returns v
  | None => Raises KeyError
  end.

(** [config.get(key, default)] *)
Definition config_get (config : Config) (key : string) (dflt : PyVal) : PyVal :=
  default dflt (local_configuration config !! key).

(** [key in config] *)
Definition config_contains (config : Config) (key : string) : bool :=
  bool_decide (is_Some (local_configuration config !! key)).

(** [v[key]] on a value: only mappings are subscripted by a string here. *)
Definition py_getitem (v : PyVal) (key : string) : answer PyVal :=
  match v with
  | PyDict d => match d !! key with Some x => Returns x | None => Raises KeyError end
  | _ => Raises OtherException
  end.

(** [v.items()]: defined on mappings only. *)
Definition py_items (v : PyVal) : answer (gmap string PyVal) :=
  match v with
  | PyDict d => Returns d
  | _ => Raises AttributeError
  end.

(** ** Tags *)

Definition reserved_tags : list string :=
  ["clonefrom"; "nofailover"; "noloadbalance"].

(** The condition of the comprehension in [get_tags]:
    [tag not in ('clonefrom', 'nofailover', 'noloadbalance') or value]. *)
Definition tag_kept (item : string * PyVal) : Prop :=
  item.1 ∉ reserved_tags ∨ truthy item.2 = true.

#[local] Instance tag_kept_dec item : Decision (tag_kept item).
Proof. unfold tag_kept. apply _. Defined.

(** [Patroni.get_tags], as a function of [self.config]. *)
Definition get_tags (config : Config) : answer (gmap string PyVal) :=
  match py_items (config_get config "tags" (PyDict ∅)) with
  | Returns items => Returns (filter tag_kept items)
  | Raises e => Raises e
  end.

(** [bool(tags.get(name, False))], the body of the [nofailover] and
    [noloadbalance] properties. *)
Definition tag_flag (tags : gmap string PyVal) (name : string) : bool :=
  truthy (default (PyBool false) (tags !! name)).

(** ** Cluster snapshot *)

(** The DCS client's view of the cluster; only [config] is consulted here.
    [cluster_config] is [PyNone] when the cluster has no configuration key. *)
Record Cluster : Type := mkCluster {
  cluster_config : PyVal
}.

(** [cluster and cluster.config], as a condition.  A [Cluster] object is a
    non-empty tuple and so is truthy; [None] is not. *)
Definition has_cluster_config (cluster : option Cluster) : bool :=
  match cluster with
  | Some c => truthy (cluster_config c)
  | None => false
  end.

(** ** Calls on collaborators *)

Inductive level : Type := INFO | WARNING | ERROR.

(** One entry of the history: a call issued to a collaborator, with its
    arguments, or a record handed to the logger. *)
Inductive event : Type :=
| dcs_get_cluster
| dcs_reload_config (config : Config)
| dcs_watch (timeout : Z)
| dcs_delete_leader
| config_set_dynamic_configuration (configuration : PyVal)
| config_reload_local_configuration
| config_save_cache
| api_start
| api_shutdown
| api_reload_config (section : PyVal)
| postgresql_reload_config (section : PyVal)
| postgresql_data_directory_empty
| postgresql_stop (checkpoint : bool)
| ha_run_cycle
| ha_is_paused
| reap_children
| time_sleep (duration : Z)
| logger (lvl : level) (msg : string).

(** The environment: how the collaborators answer.  Every answer is a
    function of the history up to and including the call it answers, so it
    may depend on the arguments and on everything that happened before.
    Attribute reads ([time.time()], [dcs.loop_wait], [dcs.cluster], the state
    of [config]) are functions of the history up to the read. *)
Record Env : Type := mkEnv {
  env_time : list event → Z;
  env_sleep : list event → answer unit;
  env_config : list event → Config;
  env_set_dynamic_configuration : list event → answer bool;
  env_reload_local_configuration : list event → answer bool;
  env_persist_cache : list event → answer unit;
  env_get_cluster : list event → answer (option Cluster);
  env_cluster : list event → option Cluster;
  env_loop_wait : list event → Z;
  env_dcs_reload_config : list event → answer unit;
  env_watch : list event → answer bool;
  env_delete_leader : list event → answer unit;
  env_api_start : list event → answer unit;
  env_api_shutdown : list event → answer unit;
  env_api_reload_config : list event → answer unit;
  env_postgresql_reload_config : list event → answer unit;
  env_data_directory_empty : list event → answer bool;
  env_postgresql_stop : list event → answer unit;
  env_run_cycle : list event → answer string;
  env_is_paused : list event → answer bool;
  env_reap_children : list event → answer unit
}.

(** ** Daemon state *)

(** The fields of the [Patroni] object that the daemon itself owns, and the
    history of the calls it has issued. *)
Record State : Type := mkState {
  tags : gmap string PyVal;
  next_run : Z;
  received_sighup : bool;
  received_sigterm : bool;
  history : list event
}.

Definition set_tags (t : gmap string PyVal) (st : State) : State :=
  mkState t (next_run st) (received_sighup st) (received_sigterm st) (history st).
Definition set_next_run (t : Z) (st : State) : State :=
  mkState (tags st) t (received_sighup st) (received_sigterm st) (history st).
Definition set_received_sighup (b : bool) (st : State) : State :=
  mkState (tags st) (next_run st) b (received_sigterm st) (history st).
Definition set_received_sigterm (b : bool) (st : State) : State :=
  mkState (tags st) (next_run st) (received_sighup st) b (history st).
Definition set_history (h : list event) (st : State) : State :=
  mkState (tags st) (next_run st) (received_sighup st) (received_sigterm st) h.

(** ** The monad: state and exceptions *)

Definition M (A : Type) : Type := State → outcome A * State.

#[export] Instance M_ret : MRet M := λ A a st, (Ok a, st).

#[export] Instance M_bind : MBind M := λ A B k m st,
  match m st with
  | (Ok a, st') => k a st'
  | (Raise e, st') => (Raise e, st')
  | (OutOfFuel, st') => (OutOfFuel, st')
  end.

Definition get {A} (field : State → A) : M A := λ st, (Ok (field st), st).
Definition modify (f : State → State) : M unit := λ st, (Ok tt, f st).
Definition raise {A} (e : exn) : M A := λ st, (Raise e, st).
Definition out_of_fuel {A} : M A := λ st, (OutOfFuel, st).
Definition lift {A} (a : answer A) : M A := λ st, (of_answer a, st).

(** An attribute read: answered from the history, not recorded in it. *)
Definition read {A} (value : list event → A) : M A :=
  λ st, (Ok (value (history st)), st).

(** A call: recorded in the history, then answered. *)
Definition call {A} (e : event) (reply : list event → answer A) : M A :=
  λ st, let h := history st ++ [e] in (of_answer (reply h), set_history h st).

Definition log (lvl : level) (msg : string) : M unit :=
  modify (λ st, set_history (history st ++ [logger lvl msg]) st).

(** [try: body / except <catches>: handler].  What the body did before it
    raised stays done. *)
Definition try_except {A} (body : M A) (catches : exn → bool) (handler : M A) : M A :=
  λ st,
    match body st with
    | (Raise e, st') => if catches e then handler st' else (Raise e, st')
    | r => r
    end.

(** [try: body / finally: final].  The final block runs however the body
    ended; an exception of the final block replaces that of the body. *)
Definition try_finally {A} (body : M A) (final : M unit) : M A :=
  λ st,
    match body st with
    | (OutOfFuel, st') => (OutOfFuel, st')
    | (r, st') =>
        match final st' with
        | (Ok _, st'') => (r, st'')
        | (Raise e, st'') => (Raise e, st'')
        | (OutOfFuel, st'') => (OutOfFuel, st'')
        end
    end.

(** ** Observing the history *)

(** The number of entries of a history that satisfy [p]. *)
Definition count_events (p : event → bool) (h : list event) : nat :=
  length (List.filter p h).

Definition overrun_warning : event :=
  logger WARNING "Loop time exceeded, rescheduling immediately.".

Definition is_overrun_warning (e : event) : bool :=
  match e with
  | logger WARNING msg =>
      String.eqb msg "Loop time exceeded, rescheduling immediately."
  | _ => false
  end.

Definition paused_notice : string :=
  "Leader key is not deleted and Postgresql is not stopped due paused state".

Definition retry_warning : event :=
  logger WARNING "Can not get cluster from dcs".

Definition cache_failure : string :=
  "Failed to persist the dynamic configuration cache".

Definition is_postgresql_stop (e : event) : bool :=
  match e with postgresql_stop _ => true | _ => false end.

Definition is_delete_leader (e : event) : bool :=
  match e with dcs_delete_leader => true | _ => false end.

Definition is_dcs_reload_config (e : event) : bool :=
  match e with dcs_reload_config _ => true | _ => false end.

(** The history after one failed fetch and its warning, and after [n] of
    them in a row. *)
Definition after_failure (h : list event) : list event :=
  h ++ [dcs_get_cluster; retry_warning].

Fixpoint after_failures (n : nat) (h : list event) : list event :=
  match n with
  | O => h
  | S n' => after_failures n' (after_failure h)
  end.

(** ** The daemon *)

Section Daemon.

Variable env : Env.

(** The [nofailover] and [noloadbalance] properties (read [self.tags]). *)
Definition nofailover (st : State) : bool := tag_flag (tags st) "nofailover".
Definition noloadbalance (st : State) : bool := tag_flag (tags st) "noloadbalance".

(** The [replicatefrom] property: [self.tags.get('replicatefrom')]. *)
Definition replicatefrom (st : State) : PyVal :=
  default PyNone (tags st !! "replicatefrom").

(** [setup_signal_handlers]: the two flags start cleared (the registration
    of the handlers with the runtime is not represented). *)
Definition setup_signal_handlers : M unit :=
  modify (set_received_sighup false);;
  modify (set_received_sigterm false).

Definition sighup_handler : M unit :=
  modify (set_received_sighup true).

Definition sigterm_handler : M unit :=
  received ← get received_sigterm;
  if negb received then
    modify (set_received_sigterm true);;
    raise SystemExit
  else mret tt.

(** The body of the [try] in [load_dynamic_configuration], up to [break]. *)
Definition load_dynamic_configuration_attempt : M unit :=
  cluster ← call dcs_get_cluster (env_get_cluster env);
  if has_cluster_config cluster then
    changed ← call (config_set_dynamic_configuration
                      (from_option cluster_config PyNone cluster))
                   (env_set_dynamic_configuration env);
    if (changed : bool) then
      config ← read (env_config env);
      call (dcs_reload_config config) (env_dcs_reload_config env)
    else mret tt
  else
    config ← read (env_config env);
    if negb (truthy (dynamic_configuration config))
       && config_contains config "bootstrap" then
      bootstrap ← lift (config_getitem config "bootstrap");
      dcs ← lift (py_getitem bootstrap "dcs");
      changed ← call (config_set_dynamic_configuration dcs)
                     (env_set_dynamic_configuration env);
      if (changed : bool) then
        config ← read (env_config env);
        call (dcs_reload_config config) (env_dcs_reload_config env)
      else mret tt
    else mret tt.

(** [load_dynamic_configuration]: [while True] with one [break], reached at
    the end of an attempt that did not raise; [fuel] bounds the number of
    attempts. *)
Fixpoint load_dynamic_configuration (fuel : nat) : M unit :=
  match fuel with
  | O => out_of_fuel
  | S fuel' =>
      done ← try_except
               (load_dynamic_configuration_attempt;; mret true)
               is_DCSError
               (log WARNING "Can not get cluster from dcs";; mret false);
      if (done : bool) then mret tt else load_dynamic_configuration fuel'
  end.

(** The [try] block of [reload_config]. *)
Definition reload_config_try : M unit :=
  config ← read (env_config env);
  new_tags ← lift (get_tags config);
  modify (set_tags new_tags);;
  config ← read (env_config env);
  call (dcs_reload_config config) (env_dcs_reload_config env);;
  config ← read (env_config env);
  restapi ← lift (config_getitem config "restapi");
  call (api_reload_config restapi) (env_api_reload_config env);;
  config ← read (env_config env);
  postgresql ← lift (config_getitem config "postgresql");
  call (postgresql_reload_config postgresql) (env_postgresql_reload_config env).

(** The record that [logger.exception] writes in [reload_config]. *)
Definition reload_failure (h : list event) : event :=
  logger ERROR ("Failed to reload config_file=" +:+ config_file (env_config env h)).

(** [reload_config] *)
Definition reload_config : M unit :=
  try_except
    reload_config_try
    is_Exception
    (config ← read (env_config env);
     log ERROR ("Failed to reload config_file=" +:+ config_file config)).

(** [schedule_next_run]; [time.sleep(0.001)] is a sleep of 1000
    microseconds. *)
Definition schedule_next_run : M unit :=
  loop_wait ← read (env_loop_wait env);
  modify (λ st, set_next_run (next_run st + loop_wait) st);;
  current_time ← read (env_time env);
  next ← get next_run;
  let nap_time := next - current_time in
  if nap_time <=? 0 then
    modify (set_next_run current_time);;
    call (time_sleep 1000) (env_sleep env);;
    log WARNING "Loop time exceeded, rescheduling immediately."
  else
    changed ← call (dcs_watch nap_time) (env_watch env);
    if (changed : bool) then
      now ← read (env_time env);
      modify (set_next_run now)
    else mret tt.

(** Modelled from the spec: [Config.save_cache] (class [Config] of
    [patroni/config.py] is not among the sources at hand).  The spec has it
    persist the current dynamic configuration to a local cache file, as an
    opportunistic step whose failures are logged and are not fatal.
    [env_persist_cache] is the outcome of the write itself. *)
Definition save_cache : M unit :=
  try_except
    (call config_save_cache (env_persist_cache env))
    is_Exception
    (log ERROR cache_failure).

(** The first step of a tick: the reload requested by SIGHUP. *)
Definition run_sighup : M unit :=
  sighup ← get received_sighup;
  if (sighup : bool) then
    modify (set_received_sighup false);;
    changed ← call config_reload_local_configuration
                   (env_reload_local_configuration env);
    if (changed : bool) then reload_config else mret tt
  else mret tt.

(** [logger.info(self.ha.run_cycle())] *)
Definition run_ha : M unit :=
  status ← call ha_run_cycle (env_run_cycle env);
  log INFO status.

(** The reload triggered by the cluster's configuration:
    [cluster and cluster.config and set_dynamic_configuration(cluster.config)]
    evaluates left to right and stops at the first falsy operand. *)
Definition run_cluster_config : M unit :=
  cluster ← read (env_cluster env);
  if has_cluster_config cluster then
    changed ← call (config_set_dynamic_configuration
                      (from_option cluster_config PyNone cluster))
                   (env_set_dynamic_configuration env);
    if (changed : bool) then reload_config else mret tt
  else mret tt.

Definition run_save_cache : M unit :=
  empty ← call postgresql_data_directory_empty (env_data_directory_empty env);
  if negb empty then save_cache else mret tt.

(** What follows the cluster-triggered reload in a tick. *)
Definition run_tick_end : M unit :=
  run_save_cache;;
  call reap_children (env_reap_children env);;
  schedule_next_run.

(** One iteration of the [while] loop of [run]. *)
Definition run_tick : M unit :=
  run_sighup;;
  run_ha;;
  run_cluster_config;;
  run_tick_end.

(** [while not self._received_sigterm: ...]; [fuel] bounds the number of
    ticks. *)
Fixpoint run_loop (fuel : nat) : M unit :=
  λ st,
    if received_sigterm st then (Ok tt, st)
    else match fuel with
         | O => (OutOfFuel, st)
         | S fuel' => (run_tick;; run_loop fuel') st
         end.

(** [run] *)
Definition run (fuel : nat) : M unit :=
  call api_start (env_api_start env);;
  now ← read (env_time env);
  modify (set_next_run now);;
  run_loop fuel.

(** The [finally] block of [main]: the shutdown sequence. *)
Definition main_finally : M unit :=
  call api_shutdown (env_api_shutdown env);;
  paused ← call ha_is_paused (env_is_paused env);
  if (paused : bool) then
    log INFO paused_notice
  else
    call (postgresql_stop false) (env_postgresql_stop env);;
    call dcs_delete_leader (env_delete_leader env).

(** [main], from the [try] on: the state it starts from is that of the
    constructed [Patroni] object. *)
Definition main (fuel : nat) : M unit :=
  try_finally
    (try_except (run fuel) is_KeyboardInterrupt (mret tt))
    main_finally.

(** What [schedule_next_run] reads on entry. *)
Definition interval_at (st : State) : Z := env_loop_wait env (history st).
Definition now_at (st : State) : Z := env_time env (history st).
Definition nap_time_at (st : State) : Z :=
  next_run st + interval_at st - now_at st.

End Daemon.

(** ** Sample inputs *)

Definition example_tags : gmap string PyVal :=
  <["clonefrom" := PyBool true]>
    (<["nofailover" := PyBool false]>
       (<["noloadbalance" := PyInt 0]>
          (<["replicatefrom" := PyStr ""]> ∅))).

Definition example_config : Config :=
  mkConfig (<["tags" := PyDict example_tags]> ∅) (PyDict ∅) "postgres0.yml".

(** A configuration with the sections the daemon subscripts, a bootstrap
    section whose [dcs] part is [bootstrap_dcs], and no dynamic
    configuration yet. *)
Definition sample_config (bootstrap_dcs : PyVal) : Config :=
  mkConfig
    (<["tags" := PyDict example_tags]>
       (<["restapi" := PyDict ∅]>
          (<["postgresql" := PyDict ∅]>
             (<["bootstrap" := PyDict (<["dcs" := bootstrap_dcs]> ∅)]> ∅))))
    (PyDict ∅) "postgres0.yml".

(** A clock that reads 12 s on an empty history and moves on by 2 s with
    each entry. *)
Definition sample_clock (h : list event) : Z :=
  12000000 + 2000000 * Z.of_nat (length h).

(** The first [failures] fetches raise [DCSError]; the later ones find no
    cluster. *)
Definition flaky_fetch (failures : nat) (h : list event) : answer (option Cluster) :=
  if (count_events (λ e, match e with dcs_get_cluster => true | _ => false end) h
      <=? failures)%nat
  then Raises DCSError else Returns None.

(** Collaborators that return from every call, but for the fetch, the push
    to the store and the write of the cache, which answer as given; the
    interval is 10 s. *)
Definition sample_env
    (config : Config) (fetch : list event → answer (option Cluster))
    (applied changed paused : bool) (push write : answer unit) : Env :=
  {| env_time := sample_clock;
     env_sleep := λ _, Returns tt;
     env_config := λ _, config;
     env_set_dynamic_configuration := λ _, Returns applied;
     env_reload_local_configuration := λ _, Returns true;
     env_persist_cache := λ _, write;
     env_get_cluster := fetch;
     env_cluster := λ _, Some (mkCluster (PyDict (<["ttl" := PyInt 30]> ∅)));
     env_loop_wait := λ _, 10000000;
     env_dcs_reload_config := λ _, push;
     env_watch := λ _, Returns changed;
     env_delete_leader := λ _, Returns tt;
     env_api_start := λ _, Returns tt;
     env_api_shutdown := λ _, Returns tt;
     env_api_reload_config := λ _, Returns tt;
     env_postgresql_reload_config := λ _, Returns tt;
     env_data_directory_empty := λ _, Returns false;
     env_postgresql_stop := λ _, Returns tt;
     env_run_cycle := λ _, Returns "no action";
     env_is_paused := λ _, Returns paused;
     env_reap_children := λ _, Returns tt |}.

(** A daemon that has issued no call yet, with the last run scheduled at
    [anchor]. *)
Definition sample_state (anchor : Z) (sighup : bool) : State :=
  mkState ∅ anchor sighup false [].

(** ** The scheduler in double precision *)

(** [time.time()] returns a double, and [next_run], [nap_time] and the
    timeout handed to the watch are doubles with it.  The daemon above
    counts time in exact integers, which is enough wherever the outcome
    does not hang on a rounding; here is [schedule_next_run] once more
    with the arithmetic of the interpreter, IEEE 754 binary64, on the
    values it reads: the anchor, [dcs.loop_wait], the clock on entry, the
    replies of the sleep and of the watch, and the clock after the watch. *)

Inductive scheduler_event : Type :=
| slept (duration : float)
| warned (msg : string)
| watched (timeout : float).

Record scheduled : Type := mkScheduled {
  scheduled_outcome : outcome unit;
  scheduled_next_run : float;
  scheduled_events : list scheduler_event
}.

#[warnings="-inexact-float"]
Definition millisecond : float := 0.001%float.

Definition schedule_next_run_double
    (next_run loop_wait current_time : float)
    (sleep_reply : answer unit) (watch_reply : float → answer bool)
    (later_time : float) : scheduled :=
  let next_run := (next_run + loop_wait)%float in
  let nap_time := (next_run - current_time)%float in
  if (nap_time <=? 0)%float then
    match sleep_reply with
    | Returns _ =>
        mkScheduled (Ok tt) current_time
          [slept millisecond;
           warned "Loop time exceeded, rescheduling immediately."]
    | Raises e => mkScheduled (Raise e) current_time [slept millisecond]
    end
  else
    match watch_reply nap_time with
    | Returns true => mkScheduled (Ok tt) later_time [watched nap_time]
    | Returns false => mkScheduled (Ok tt) next_run [watched nap_time]
    | Raises e => mkScheduled (Raise e) next_run [watched nap_time]
    end.

(** The test of [schedule_next_run] fails: [nap_time <= 0] is false, and
    the wait is entered. *)
Definition wait_entered (next_run loop_wait current_time : float) : bool :=
  negb ((next_run + loop_wait) - current_time <=? 0)%float.

(** The anchor after the ticks that end at the given clock readings, the
    sleep returning and the watch reporting no change in each. *)
Fixpoint anchor_after (readings : list float) (next_run loop_wait : float) : float :=
  match readings with
  | [] => next_run
  | current_time :: rest =>
      anchor_after rest
        (scheduled_next_run
           (schedule_next_run_double next_run loop_wait current_time
              (Returns tt) (λ _, Returns false) current_time))
        loop_wait
  end.

(** The wait is entered in each of these ticks. *)
Fixpoint all_waits_entered
    (readings : list float) (next_run loop_wait : float) : bool :=
  match readings with
  | [] => true
  | current_time :: rest =>
      wait_entered next_run loop_wait current_time
      && all_waits_entered rest (next_run + loop_wait)%float loop_wait
  end.

(** [n] additions of the interval to the anchor, each rounded. *)
Fixpoint advanced (n : nat) (next_run loop_wait : float) : float :=
  match n with
  | O => next_run
  | S n' => advanced n' (next_run + loop_wait)%float loop_wait
  end.

(** An anchor on a whole second of late 2023, an interval of a tenth of a
    second, and clock readings 50 ms and 99.9999 ms after the anchor. *)
#[warnings="-inexact-float"]
Definition sample_anchor : float := 1700000000.0%float.

#[warnings="-inexact-float"]
Definition tenth_of_a_second : float := 0.1%float.

#[warnings="-inexact-float"]
Definition reading_at_50ms : float := 1700000000.05%float.

#[warnings="-inexact-float"]
Definition reading_just_in_time : float := 1700000000.0999999%float.

(** ** Signal delivery *)

(** [n] deliveries of a signal: the handler runs [n] times, each on the
    state the previous one left (an exception raised by a handler unwinds
    the interrupted code, not the state). *)
Fixpoint deliver (handler : M unit) (n : nat) (st : State) : State :=
  match n with
  | O => st
  | S n' => deliver handler n' (handler st).2
  end.

(** ** Relating the state before and after *)

(** [m] keeps the relation [R] between the state it starts from and the
    state it leaves, however it ends. *)
Definition maintains {A} (R : State → State → Prop) (m : M A) : Prop :=
  ∀ st, R st (m st).2.

(** The history has grown by entries that all satisfy [p]. *)
Definition extends_by (p : event → bool) (st st' : State) : Prop :=
  ∃ k, history st' = history st ++ k ∧ Forall (λ e, p e = true) k.

(** [field] has the value it had. *)
Definition keeps {A} (field : State → A) (st st' : State) : Prop :=
  field st' = field st.

Definition both (R1 R2 : State → State → Prop) (st st' : State) : Prop :=
  R1 st st' ∧ R2 st st'.

(** What was issued between two states. *)
Definition issued (st st' : State) : list event :=
  drop (length (history st)) (history st').

Definition is_get_cluster (e : event) : bool :=
  match e with dcs_get_cluster => true | _ => false end.

Definition is_retry_warning (e : event) : bool :=
  match e with
  | logger WARNING msg => String.eqb msg "Can not get cluster from dcs"
  | _ => false
  end.

Definition is_reload_local_configuration (e : event) : bool :=
  match e with config_reload_local_configuration => true | _ => false end.

Definition is_save_cache (e : event) : bool :=
  match e with config_save_cache => true | _ => false end.

(** The calls of the shutdown sequence. *)
Definition is_shutdown_call (e : event) : bool :=
  match e with
  | api_shutdown | ha_is_paused | postgresql_stop _ | dcs_delete_leader => true
  | _ => false
  end.

(** What an attempt of the bootstrap may issue after its fetch. *)
Definition is_bootstrap_step (e : event) : bool :=
  match e with
  | config_set_dynamic_configuration _ | dcs_reload_config _ => true
  | _ => false
  end.

Definition is_api_shutdown (e : event) : bool :=
  match e with api_shutdown => true | _ => false end.

(** What a reload may issue: the three notifications and log records. *)
Definition is_reload_event (e : event) : bool :=
  match e with
  | dcs_reload_config _ | api_reload_config _ | postgresql_reload_config _
  | logger _ _ => true
  | _ => false
  end.

(** What a tick may issue: anything but a fetch, the start of the status
    API and the calls of the shutdown sequence. *)
Definition is_tick_event (e : event) : bool :=
  match e with
  | dcs_get_cluster | api_start => false
  | _ => negb (is_shutdown_call e)
  end.

(** ** More sample inputs *)

(** [env], but for the calls that [fails] maps to an exception, which
    raise it. *)
Definition raising (fails : event → option exn) (env : Env) : Env :=
  let guard {A} (reply : list event → answer A) (h : list event) : answer A :=
    match last h with
    | Some call =>
        match fails call with
        | Some e => Raises e
        | None => reply h
        end
    | None => reply h
    end in
  {| env_time := env_time env;
     env_sleep := guard (env_sleep env);
     env_config := env_config env;
     env_set_dynamic_configuration := guard (env_set_dynamic_configuration env);
     env_reload_local_configuration := guard (env_reload_local_configuration env);
     env_persist_cache := guard (env_persist_cache env);
     env_get_cluster := guard (env_get_cluster env);
     env_cluster := env_cluster env;
     env_loop_wait := env_loop_wait env;
     env_dcs_reload_config := guard (env_dcs_reload_config env);
     env_watch := guard (env_watch env);
     env_delete_leader := guard (env_delete_leader env);
     env_api_start := guard (env_api_start env);
     env_api_shutdown := guard (env_api_shutdown env);
     env_api_reload_config := guard (env_api_reload_config env);
     env_postgresql_reload_config := guard (env_postgresql_reload_config env);
     env_data_directory_empty := guard (env_data_directory_empty env);
     env_postgresql_stop := guard (env_postgresql_stop env);
     env_run_cycle := guard (env_run_cycle env);
     env_is_paused := guard (env_is_paused env);
     env_reap_children := guard (env_reap_children env) |}.

(** Collaborators that return from every call; the cluster they know has a
    configuration. *)
Definition quiet_env (config : Config) : Env :=
  sample_env config (flaky_fetch 0) true false false (Returns tt) (Returns tt).

(** A configuration with nothing but the given tags section. *)
Definition tags_only_config (section : PyVal) : Config :=
  mkConfig (<["tags" := section]> ∅) (PyDict ∅) "postgres0.yml".

(** A fetch that finds a cluster with a configuration. *)
Definition configured_fetch (h : list event) : answer (option Cluster) :=
  Returns (Some (mkCluster (PyDict (<["ttl" := PyInt 30]> ∅)))).

Definition is_run_cycle (e : event) : bool :=
  match e with ha_run_cycle => true | _ => false end.

Definition is_sleep (e : event) : bool :=
  match e with time_sleep _ => true | _ => false end.

(** The calls that satisfy [p] fail with [e]. *)
Definition fail_on (p : event → bool) (e : exn) (call : event) : option exn :=
  if p call then Some e else None.

(** [env], with a store client that has no cluster cached. *)
Definition without_cluster (env : Env) : Env :=
  {| env_time := env_time env;
     env_sleep := env_sleep env;
     env_config := env_config env;
     env_set_dynamic_configuration := env_set_dynamic_configuration env;
     env_reload_local_configuration := env_reload_local_configuration env;
     env_persist_cache := env_persist_cache env;
     env_get_cluster := env_get_cluster env;
     env_cluster := λ _, None;
     env_loop_wait := env_loop_wait env;
     env_dcs_reload_config := env_dcs_reload_config env;
     env_watch := env_watch env;
     env_delete_leader := env_delete_leader env;
     env_api_start := env_api_start env;
     env_api_shutdown := env_api_shutdown env;
     env_api_reload_config := env_api_reload_config env;
     env_postgresql_reload_config := env_postgresql_reload_config env;
     env_data_directory_empty := env_data_directory_empty env;
     env_postgresql_stop := env_postgresql_stop env;
     env_run_cycle := env_run_cycle env;
     env_is_paused := env_is_paused env;
     env_reap_children := env_reap_children env |}.

(** The tags derived from [example_tags]. *)
Definition example_derived : gmap string PyVal :=
  <["clonefrom" := PyBool true]> (<["replicatefrom" := PyStr ""]> ∅).

(** ** Running the monad *)

(** Unfolds one layer of monadic plumbing and normalises the history. *)
Ltac step :=
  unfold mbind, M_bind, mret, M_ret, log, call, read, get, modify, lift,
    raise, out_of_fuel;
  cbn [history next_run tags received_sighup received_sigterm
       set_history set_next_run set_tags set_received_sighup
       set_received_sigterm of_answer negb andb orb fst snd];
  rewrite <- ?app_assoc; cbn [app].

(** Closes a goal saying that a history extends another. *)
Ltac grows :=
  eexists; rewrite <- ?app_assoc; cbn [app]; try reflexivity;
  rewrite ?app_nil_r; reflexivity.

(** * Properties *)

(** ** Tags *)

Lemma reserved_tags_spec (tag : string) :
  tag ∈ reserved_tags ↔
  tag = "clonefrom" ∨ tag = "nofailover" ∨ tag = "noloadbalance".
Proof. unfold reserved_tags. rewrite !elem_of_cons, elem_of_nil. tauto. Qed.

Lemma get_tags_of_mapping (config : Config) (raw : gmap string PyVal) :
  config_get config "tags" (PyDict ∅) = PyDict raw →
  get_tags config = Returns (filter tag_kept raw).
Proof. intros Hraw. unfold get_tags. rewrite Hraw. reflexivity. Qed.

Lemma get_tags_lookup (raw : gmap string PyVal) (tag : string) :
  filter tag_kept raw !! tag =
  match raw !! tag with
  | Some v =>
      if bool_decide (tag ∈ reserved_tags) && negb (truthy v)
      then None else Some v
  | None => None
  end.
Proof.
  destruct (raw !! tag) as [v|] eqn:Hv.
  - destruct (bool_decide (tag ∈ reserved_tags)) eqn:Hres;
      destruct (truthy v) eqn:Htr; cbn.
    + apply map_lookup_filter_Some. split; [done|]. right. exact Htr.
    + apply map_lookup_filter_None. right. intros v' Hv' [Hn|Ht]; cbn in *.
      * apply bool_decide_eq_true in Hres. contradiction.
      * congruence.
    + apply map_lookup_filter_Some. split; [done|]. right. exact Htr.
    + apply map_lookup_filter_Some. split; [done|]. left.
      apply bool_decide_eq_false in Hres. exact Hres.
  - apply map_lookup_filter_None. left. exact Hv.
Qed.

(** C9: for a configuration whose tags section is the mapping [raw],
    [get_tags] returns a mapping from which exactly the entries with a
    reserved name and a falsy value are gone: such an entry is dropped, an
    entry with a truthy value or with another name is there with its value,
    and nothing else is there. *)
Theorem get_tags_drops_falsy_reserved (config : Config) (raw : gmap string PyVal) :
  config_get config "tags" (PyDict ∅) = PyDict raw →
  ∃ derived : gmap string PyVal,
    get_tags config = Returns derived ∧
    (∀ tag v, raw !! tag = Some v →
       tag ∈ reserved_tags → truthy v = false → derived !! tag = None) ∧
    (∀ tag v, raw !! tag = Some v →
       truthy v = true ∨ tag ∉ reserved_tags → derived !! tag = Some v) ∧
    (∀ tag v, derived !! tag = Some v → raw !! tag = Some v).
Proof.
  intros Hraw. exists (filter tag_kept raw).
  split; [by apply get_tags_of_mapping|].
  split; [|split]; intros tag v.
  - intros Hv Hres Hf. rewrite get_tags_lookup, Hv, Hf.
    by rewrite bool_decide_eq_true_2.
  - intros Hv [Ht|Hn]; rewrite get_tags_lookup, Hv.
    + rewrite Ht. by rewrite andb_false_r.
    + by rewrite bool_decide_eq_false_2.
  - intros Hd. by apply map_lookup_filter_Some in Hd as [? _].
Qed.

Lemma get_tags_drops_falsy_reserved_witness :
  ∃ derived : gmap string PyVal,
    get_tags example_config = Returns derived ∧
    (∀ tag v, example_tags !! tag = Some v →
       tag ∈ reserved_tags → truthy v = false → derived !! tag = None) ∧
    (∀ tag v, example_tags !! tag = Some v →
       truthy v = true ∨ tag ∉ reserved_tags → derived !! tag = Some v) ∧
    (∀ tag v, derived !! tag = Some v → example_tags !! tag = Some v).
Proof.
  apply (get_tags_drops_falsy_reserved example_config example_tags).
  reflexivity.
Defined.

Example get_tags_example :
  get_tags example_config =
  Returns (<["clonefrom" := PyBool true]> (<["replicatefrom" := PyStr ""]> ∅)).
Proof. vm_compute. reflexivity. Qed.

Lemma tag_flag_filter (raw : gmap string PyVal) (name : string) :
  tag_flag (filter tag_kept raw) name = tag_flag raw name.
Proof.
  unfold tag_flag. rewrite get_tags_lookup.
  destruct (raw !! name) as [v|]; [|done].
  destruct (bool_decide (name ∈ reserved_tags)); cbn; [|done].
  destruct (truthy v) eqn:Hv; cbn; rewrite ?Hv; done.
Qed.

(** C10: when the tags of the daemon are those derived by [get_tags] from a
    configuration whose tags section is the mapping [raw], [nofailover] and
    [noloadbalance] are the truthiness of the raw entries of those names
    ([False] when there is none). *)
Theorem derived_flags_ignore_filtering
    (config : Config) (raw : gmap string PyVal) (st : State) :
  config_get config "tags" (PyDict ∅) = PyDict raw →
  get_tags config = Returns (tags st) →
  nofailover st = truthy (default (PyBool false) (raw !! "nofailover")) ∧
  noloadbalance st = truthy (default (PyBool false) (raw !! "noloadbalance")).
Proof.
  intros Hraw Htags. rewrite (get_tags_of_mapping _ _ Hraw) in Htags.
  injection Htags as Htags. unfold nofailover, noloadbalance.
  rewrite <- Htags, !tag_flag_filter. done.
Qed.

Lemma derived_flags_ignore_filtering_witness :
  let st := mkState (<["clonefrom" := PyBool true]>
                       (<["replicatefrom" := PyStr ""]> ∅)) 0 false false [] in
  nofailover st = truthy (default (PyBool false) (example_tags !! "nofailover")) ∧
  noloadbalance st = truthy (default (PyBool false) (example_tags !! "noloadbalance")).
Proof.
  apply (derived_flags_ignore_filtering example_config example_tags).
  - reflexivity.
  - vm_compute. reflexivity.
Defined.

(** ** Scheduling *)

Lemma wait_entered_step
    (next_run loop_wait current_time later_time : float)
    (sleep_reply : answer unit) (watch_reply : float → answer bool) :
  wait_entered next_run loop_wait current_time = true →
  watch_reply ((next_run + loop_wait) - current_time)%float = Returns false →
  schedule_next_run_double next_run loop_wait current_time
    sleep_reply watch_reply later_time =
  mkScheduled (Ok tt) (next_run + loop_wait)%float
    [watched ((next_run + loop_wait) - current_time)%float].
Proof.
  unfold wait_entered, schedule_next_run_double. intros Hwait Hwatch.
  apply negb_true_iff in Hwait. cbn zeta. rewrite Hwait, Hwatch. reflexivity.
Qed.

Lemma anchor_after_waits (readings : list float) (loop_wait : float) :
  ∀ next_run,
    all_waits_entered readings next_run loop_wait = true →
    anchor_after readings next_run loop_wait =
    advanced (length readings) next_run loop_wait.
Proof.
  induction readings as [|current_time rest IH]; intros next_run Hall;
    [reflexivity|].
  cbn [all_waits_entered] in Hall. apply andb_true_iff in Hall as [Hwait Hrest].
  cbn [anchor_after advanced length].
  rewrite (wait_entered_step _ _ _ _ _ _ Hwait eq_refl).
  cbn [scheduled_next_run]. by apply IH.
Qed.

(** C2, amended: in a tick that enters the wait (the nap time that the code
    computes in doubles is positive) and whose watch reports no change,
    [schedule_next_run] issues that watch and nothing else and leaves as
    anchor the double sum of the anchor and the interval, whatever the
    clock read; after any number of such ticks in a row the anchor is that
    many rounded additions of the interval to the first anchor, whatever
    the clock read in each. *)
Theorem on_time_tick_advances_by_rounded_interval
    (next_run loop_wait current_time later_time : float)
    (sleep_reply : answer unit) (watch_reply : float → answer bool)
    (readings : list float) :
  (wait_entered next_run loop_wait current_time = true →
   watch_reply ((next_run + loop_wait) - current_time)%float = Returns false →
   schedule_next_run_double next_run loop_wait current_time
     sleep_reply watch_reply later_time =
   mkScheduled (Ok tt) (next_run + loop_wait)%float
     [watched ((next_run + loop_wait) - current_time)%float]) ∧
  (all_waits_entered readings next_run loop_wait = true →
   anchor_after readings next_run loop_wait =
   advanced (length readings) next_run loop_wait).
Proof.
  split.
  - apply wait_entered_step.
  - apply anchor_after_waits.
Qed.

Lemma on_time_tick_advances_by_rounded_interval_witness :
  schedule_next_run_double sample_anchor tenth_of_a_second reading_at_50ms
    (Returns tt) (λ _, Returns false) reading_at_50ms =
  mkScheduled (Ok tt) (sample_anchor + tenth_of_a_second)%float
    [watched ((sample_anchor + tenth_of_a_second) - reading_at_50ms)%float] ∧
  anchor_after [reading_at_50ms; reading_just_in_time]
    sample_anchor tenth_of_a_second =
  advanced 2 sample_anchor tenth_of_a_second.
Proof.
  destruct (on_time_tick_advances_by_rounded_interval
              sample_anchor tenth_of_a_second reading_at_50ms reading_at_50ms
              (Returns tt) (λ _, Returns false)
              [reading_at_50ms; reading_just_in_time]) as [Hone Hmany].
  split.
  - apply Hone; reflexivity.
  - apply Hmany. vm_compute. reflexivity.
Defined.

(** C2 as written fails.  The anchor is 1700000000.0, the interval 0.1 and
    the clock reads 1700000000.0999999: the tick has lasted less than the
    interval, yet the sum of anchor and interval rounds down onto the
    clock reading, the nap time is zero, and the code takes the overrun
    path: it sleeps and warns instead of waiting, and the anchor has moved
    by less than the interval. *)
Lemma short_tick_takes_overrun_path :
  (reading_just_in_time - sample_anchor <? tenth_of_a_second)%float = true ∧
  schedule_next_run_double sample_anchor tenth_of_a_second
    reading_just_in_time (Returns tt) (λ _, Returns false)
    reading_just_in_time =
  mkScheduled (Ok tt) reading_just_in_time
    [slept millisecond;
     warned "Loop time exceeded, rescheduling immediately."] ∧
  (reading_just_in_time - sample_anchor =? tenth_of_a_second)%float = false.
Proof. vm_compute. repeat split. Qed.

(** Ten ticks that all enter the wait, a tenth of a second apart: the
    anchor ends a microsecond short of the second. *)
#[warnings="-inexact-float"]
Example rounded_additions_drift :
  advanced 10 sample_anchor tenth_of_a_second = 1700000000.999999%float ∧
  (advanced 10 sample_anchor tenth_of_a_second =? sample_anchor + 1)%float
  = false.
Proof. vm_compute. split; reflexivity. Qed.

(** *** The daemon's scheduler *)

Section Scheduling.

Variable env : Env.

Lemma schedule_next_run_wait (st : State) :
  0 < nap_time_at env st →
  schedule_next_run env st =
  let h := history st ++ [dcs_watch (nap_time_at env st)] in
  match env_watch env h with
  | Returns true => (Ok tt, mkState (tags st) (env_time env h)
                         (received_sighup st) (received_sigterm st) h)
  | Returns false => (Ok tt, mkState (tags st) (next_run st + interval_at env st)
                          (received_sighup st) (received_sigterm st) h)
  | Raises e => (Raise e, mkState (tags st) (next_run st + interval_at env st)
                            (received_sighup st) (received_sigterm st) h)
  end.
Proof.
  unfold nap_time_at, interval_at, now_at. intros Hnap.
  unfold schedule_next_run. step.
  destruct (Z.leb_spec (next_run st + env_loop_wait env (history st)
                        - env_time env (history st)) 0) as [Hle|_]; [lia|].
  step. unfold set_history, set_next_run; cbn.
  destruct (env_watch env _) as [[|]|]; reflexivity.
Qed.

Lemma schedule_next_run_overrun (st : State) :
  nap_time_at env st ≤ 0 →
  schedule_next_run env st =
  let h := history st ++ [time_sleep 1000] in
  match env_sleep env h with
  | Returns _ => (Ok tt, mkState (tags st) (now_at env st) (received_sighup st)
                      (received_sigterm st) (h ++ [overrun_warning]))
  | Raises e => (Raise e, mkState (tags st) (now_at env st) (received_sighup st)
                            (received_sigterm st) h)
  end.
Proof.
  unfold nap_time_at, interval_at, now_at. intros Hnap.
  unfold schedule_next_run. step.
  destruct (Z.leb_spec (next_run st + env_loop_wait env (history st)
                        - env_time env (history st)) 0) as [_|Hlt]; [|lia].
  step. unfold set_history, set_next_run; cbn.
  destruct (env_sleep env _) as [[]|]; reflexivity.
Qed.

(** C3: when the current time is at or past the anchor plus the interval,
    [schedule_next_run] sets the anchor to the current time (not earlier
    than the time it replaces, and not in the past of the reading), sleeps
    for a millisecond and, the sleep over, logs the overrun warning once;
    it does not wait on the store. *)
Theorem overrun_resets_anchor_to_now (st : State) :
  next_run st + interval_at env st ≤ now_at env st →
  env_sleep env (history st ++ [time_sleep 1000]) = Returns tt →
  ∃ st', schedule_next_run env st = (Ok tt, st') ∧
         next_run st' = now_at env st ∧
         next_run st + interval_at env st ≤ next_run st' ∧
         history st' = history st ++ [time_sleep 1000; overrun_warning] ∧
         count_events is_overrun_warning
           (drop (length (history st)) (history st')) = 1%nat.
Proof.
  intros Hover Hsleep.
  rewrite schedule_next_run_overrun by (unfold nap_time_at; lia).
  cbn zeta. rewrite Hsleep. eexists. split; [reflexivity|]. cbn.
  repeat split; try lia.
  - by rewrite <- app_assoc.
  - rewrite <- app_assoc. rewrite drop_app_length. reflexivity.
Qed.

(** C4: when the wait is entered and the watch reports a change,
    [schedule_next_run] sets the anchor to the time read once the watch has
    returned. *)
Theorem early_wake_resets_anchor (st : State) :
  now_at env st < next_run st + interval_at env st →
  env_watch env (history st ++ [dcs_watch (nap_time_at env st)]) = Returns true →
  ∃ st', schedule_next_run env st = (Ok tt, st') ∧
         history st' = history st ++ [dcs_watch (nap_time_at env st)] ∧
         next_run st' = now_at env st'.
Proof.
  intros Hd Hwatch.
  rewrite schedule_next_run_wait by (unfold nap_time_at; lia).
  cbn zeta. rewrite Hwatch. eexists. split; [reflexivity|]. split; reflexivity.
Qed.

End Scheduling.

Lemma overrun_resets_anchor_to_now_witness :
  let env := sample_env example_config (flaky_fetch 0) true false false
               (Returns tt) (Returns tt) in
  let st := sample_state 0 false in
  ∃ st', schedule_next_run env st = (Ok tt, st') ∧
         next_run st' = now_at env st ∧
         next_run st + interval_at env st ≤ next_run st' ∧
         history st' = history st ++ [time_sleep 1000; overrun_warning] ∧
         count_events is_overrun_warning
           (drop (length (history st)) (history st')) = 1%nat.
Proof.
  apply (overrun_resets_anchor_to_now
           (sample_env example_config (flaky_fetch 0) true false false
              (Returns tt) (Returns tt))
           (sample_state 0 false)).
  - vm_compute. discriminate.
  - reflexivity.
Defined.

Example overrun_scenario :
  let env := sample_env example_config (flaky_fetch 0) true false false
               (Returns tt) (Returns tt) in
  schedule_next_run env (sample_state 0 false) =
  (Ok tt, mkState ∅ 12000000 false false [time_sleep 1000; overrun_warning]).
Proof. vm_compute. reflexivity. Qed.

Lemma early_wake_resets_anchor_witness :
  let env := sample_env example_config (flaky_fetch 0) true true false
               (Returns tt) (Returns tt) in
  let st := sample_state 9000000 false in
  ∃ st', schedule_next_run env st = (Ok tt, st') ∧
         history st' = history st ++ [dcs_watch (nap_time_at env st)] ∧
         next_run st' = now_at env st'.
Proof.
  apply (early_wake_resets_anchor
           (sample_env example_config (flaky_fetch 0) true true false
              (Returns tt) (Returns tt))
           (sample_state 9000000 false)).
  - vm_compute. reflexivity.
  - reflexivity.
Defined.

(** ** Shutdown *)

Section Shutdown.

Variable env : Env.

Lemma main_finally_paused (st : State) :
  env_api_shutdown env (history st ++ [api_shutdown]) = Returns tt →
  env_is_paused env (history st ++ [api_shutdown; ha_is_paused]) = Returns true →
  main_finally env st =
  (Ok tt, set_history (history st ++ [api_shutdown; ha_is_paused;
                                      logger INFO paused_notice]) st).
Proof.
  intros Hapi Hpaused. unfold main_finally. step. rewrite Hapi. step.
  rewrite Hpaused. step. reflexivity.
Qed.

Lemma main_finally_not_paused (st : State) :
  env_api_shutdown env (history st ++ [api_shutdown]) = Returns tt →
  env_is_paused env (history st ++ [api_shutdown; ha_is_paused]) = Returns false →
  ∃ h, history (main_finally env st).2 =
       history st ++ [api_shutdown; ha_is_paused; postgresql_stop false] ++ h ∧
       (h = [] ∨ h = [dcs_delete_leader]) ∧
       (env_postgresql_stop env
          (history st ++ [api_shutdown; ha_is_paused; postgresql_stop false])
        = Returns tt → h = [dcs_delete_leader]).
Proof.
  intros Hapi Hpaused. unfold main_finally. step. rewrite Hapi. step.
  rewrite Hpaused. step.
  destruct (env_postgresql_stop env _) as [[]|e] eqn:Hstop.
  - exists [dcs_delete_leader]. step. auto.
  - exists []. cbn. split; [done|]. split; [auto|]. intros; discriminate.
Qed.

(** C1: in the shutdown sequence, once the status API is shut down and the
    HA collaborator has answered [is_paused()]: if it answered true, no stop
    is issued to the datastore and no deletion of the leader key to the
    store; if it answered false, one stop is issued, with
    [checkpoint=False], and, that stop having returned, the leader key is
    deleted once, which ends the sequence. *)
Theorem shutdown_respects_pause (st : State) (paused : bool) :
  env_api_shutdown env (history st ++ [api_shutdown]) = Returns tt →
  env_is_paused env (history st ++ [api_shutdown; ha_is_paused]) = Returns paused →
  let issued := drop (length (history st)) (history (main_finally env st).2) in
  if paused then
    count_events is_postgresql_stop issued = 0%nat ∧
    count_events is_delete_leader issued = 0%nat
  else
    List.filter is_postgresql_stop issued = [postgresql_stop false] ∧
    (env_postgresql_stop env
       (history st ++ [api_shutdown; ha_is_paused; postgresql_stop false])
     = Returns tt →
     count_events is_delete_leader issued = 1%nat ∧
     issued = [api_shutdown; ha_is_paused; postgresql_stop false;
               dcs_delete_leader]).
Proof.
  intros Hapi Hpaused. destruct paused; cbn zeta.
  - rewrite main_finally_paused by done. cbn [snd history set_history].
    rewrite drop_app_length. split; reflexivity.
  - destruct (main_finally_not_paused st Hapi Hpaused) as (h & Hh & Hcase & Hstop).
    rewrite Hh, drop_app_length. split.
    + destruct Hcase as [-> | ->]; reflexivity.
    + intros Hok. rewrite (Hstop Hok). split; reflexivity.
Qed.

(** However [run] ends, short of running forever, [main] goes through the
    shutdown sequence, entered from the state [run] left. *)
Lemma main_runs_shutdown (fuel : nat) (st st1 : State) (r : outcome unit) :
  run env fuel st = (r, st1) → r ≠ OutOfFuel →
  ∃ r', main env fuel st = (r', (main_finally env st1).2).
Proof.
  intros Hrun Hr. unfold main, try_finally, try_except. rewrite Hrun.
  destruct r as [[]|e|]; [| |done].
  - destruct (main_finally env st1) as [[[]|e'|] st2]; eauto.
  - destruct (is_KeyboardInterrupt e); cbn;
      destruct (main_finally env st1) as [[[]|e'|] st2]; eauto.
Qed.

End Shutdown.

Lemma shutdown_respects_pause_witness :
  let env := sample_env example_config (flaky_fetch 0) true false false
               (Returns tt) (Returns tt) in
  let st := sample_state 0 false in
  let issued := drop (length (history st)) (history (main_finally env st).2) in
  List.filter is_postgresql_stop issued = [postgresql_stop false] ∧
  (env_postgresql_stop env
     (history st ++ [api_shutdown; ha_is_paused; postgresql_stop false])
   = Returns tt →
   count_events is_delete_leader issued = 1%nat ∧
   issued = [api_shutdown; ha_is_paused; postgresql_stop false;
             dcs_delete_leader]).
Proof.
  apply (shutdown_respects_pause
           (sample_env example_config (flaky_fetch 0) true false false
              (Returns tt) (Returns tt))
           (sample_state 0 false) false).
  - reflexivity.
  - reflexivity.
Defined.

Example paused_shutdown_scenario :
  let env := sample_env example_config (flaky_fetch 0) true false true
               (Returns tt) (Returns tt) in
  main_finally env (sample_state 0 false) =
  (Ok tt, mkState ∅ 0 false false
            [api_shutdown; ha_is_paused; logger INFO paused_notice]).
Proof. vm_compute. reflexivity. Qed.

Example normal_shutdown_scenario :
  let env := sample_env example_config (flaky_fetch 0) true false false
               (Returns tt) (Returns tt) in
  main_finally env (sample_state 0 false) =
  (Ok tt, mkState ∅ 0 false false
            [api_shutdown; ha_is_paused; postgresql_stop false;
             dcs_delete_leader]).
Proof. vm_compute. reflexivity. Qed.

(** ** Reload and cache persistence *)

Section Reload.

Variable env : Env.

Lemma reload_config_caught (st st1 : State) (e : exn) :
  reload_config_try env st = (Raise e, st1) → is_Exception e = true →
  reload_config env st =
  (Ok tt, set_history (history st1 ++ [reload_failure env (history st1)]) st1).
Proof.
  intros Htry He. unfold reload_config, try_except. rewrite Htry, He.
  step. reflexivity.
Qed.

(** Only what is not an [Exception] gets through [reload_config], and the
    reload uses no fuel. *)
Lemma reload_config_try_terminates (st : State) :
  (reload_config_try env st).1 ≠ OutOfFuel.
Proof.
  unfold reload_config_try. step.
  destruct (get_tags _) as [t|?]; [|done]. step.
  destruct (env_dcs_reload_config env _) as [[]|?]; [|done]. step.
  destruct (config_getitem _ "restapi") as [?|?]; [|done]. step.
  destruct (env_api_reload_config env _) as [[]|?]; [|done]. step.
  destruct (config_getitem _ "postgresql") as [?|?]; [|done]. step.
  destruct (env_postgresql_reload_config env _) as [[]|?]; done.
Qed.

Lemma reload_config_outcome (st : State) :
  (reload_config env st).1 = Ok tt ∨
  ∃ e, (reload_config env st).1 = Raise e ∧ is_Exception e = false.
Proof.
  pose proof (reload_config_try_terminates st) as Hterm.
  unfold reload_config, try_except.
  destruct (reload_config_try env st) as [[[]|e|] st1] eqn:Htry.
  - by left.
  - destruct (is_Exception e) eqn:He.
    + left. step. reflexivity.
    + right. eauto.
  - done.
Qed.

End Reload.

Section Tick.

Variable env : Env.

Lemma run_loop_unfold (fuel : nat) (st : State) :
  received_sigterm st = false →
  run_loop env (S fuel) st =
  (run_sighup env;; run_ha env;; run_cluster_config env;; run_tick_end env;;
   run_loop env fuel) st.
Proof.
  intros Hterm. cbn [run_loop]. rewrite Hterm. unfold run_tick.
  unfold mbind, M_bind.
  destruct (run_sighup env st) as [[[]|?|] s1]; [|done..].
  destruct (run_ha env s1) as [[[]|?|] s2]; [|done..].
  destruct (run_cluster_config env s2) as [[[]|?|] s3]; [|done..].
  destruct (run_tick_end env s3) as [[[]|?|] s4]; done.
Qed.

Lemma seq_returns {B} (m : M unit) (k : M B) (st st' : State) :
  m st = (Ok tt, st') → (m;; k) st = k st'.
Proof. intros Hm. unfold mbind, M_bind. by rewrite Hm. Qed.

(** C6: when the [try] block of [reload_config] raises an [Exception], the
    reload returns normally and the failure is logged; in the tick where
    that reload was requested by SIGHUP, the loop goes on with the HA
    cycle and the steps after it, and in the tick where it was triggered
    by the cluster's configuration, with the steps after the reload, and
    then with the next iteration. *)
Theorem reload_failure_does_not_stop_the_loop
    (st st1 : State) (e : exn) (fuel : nat) :
  reload_config_try env st = (Raise e, st1) →
  is_Exception e = true →
  let st2 := set_history (history st1 ++ [reload_failure env (history st1)]) st1 in
  reload_config env st = (Ok tt, st2) ∧
  (∀ st0 : State,
     received_sigterm st0 = false →
     received_sighup st0 = true →
     env_reload_local_configuration env
       (history st0 ++ [config_reload_local_configuration]) = Returns true →
     st = set_history (history st0 ++ [config_reload_local_configuration])
            (set_received_sighup false st0) →
     run_loop env (S fuel) st0 =
     (run_ha env;; run_cluster_config env;; run_tick_end env;;
      run_loop env fuel) st2) ∧
  (∀ st0 : State,
     has_cluster_config (env_cluster env (history st0)) = true →
     let request :=
       config_set_dynamic_configuration
         (from_option cluster_config PyNone (env_cluster env (history st0))) in
     env_set_dynamic_configuration env (history st0 ++ [request]) = Returns true →
     st = set_history (history st0 ++ [request]) st0 →
     (run_cluster_config env;; run_tick_end env;; run_loop env fuel) st0 =
     (run_tick_end env;; run_loop env fuel) st2).
Proof.
  intros Htry He st2.
  pose proof (reload_config_caught env st st1 e Htry He) as Hreload.
  fold st2 in Hreload. split; [exact Hreload|]. split.
  - intros st0 Hterm Hhup Hlocal Hst.
    rewrite run_loop_unfold by done.
    apply seq_returns. unfold run_sighup. step. rewrite Hhup. step.
    rewrite Hlocal. step. rewrite <- Hreload, Hst. reflexivity.
  - intros st0 Hcfg request Hset Hst.
    apply seq_returns. unfold run_cluster_config. step. rewrite Hcfg.
    fold request. step. rewrite Hset. step. rewrite <- Hreload, Hst.
    reflexivity.
Qed.

(** C8 (against [save_cache] as the specification describes it): in a tick
    that has come to the cache step with the data directory not empty, a
    write of the cache that fails with an [Exception] is logged and the
    cache step returns; the loop goes on with the reaping of children and
    the scheduling of the next run; and, these two returning, the tick
    completes and the loop is at its next iteration. *)
Theorem cache_failure_is_logged_and_not_fatal
    (st st_mid st_end : State) (e : exn) (fuel : nat) :
  received_sigterm st = false →
  (run_sighup env;; run_ha env;; run_cluster_config env) st = (Ok tt, st_mid) →
  env_data_directory_empty env
    (history st_mid ++ [postgresql_data_directory_empty]) = Returns false →
  env_persist_cache env
    (history st_mid ++ [postgresql_data_directory_empty; config_save_cache])
  = Raises e →
  is_Exception e = true →
  let st' := set_history
               (history st_mid ++ [postgresql_data_directory_empty;
                                   config_save_cache;
                                   logger ERROR cache_failure]) st_mid in
  run_save_cache env st_mid = (Ok tt, st') ∧
  run_loop env (S fuel) st =
  (call reap_children (env_reap_children env);; schedule_next_run env;;
   run_loop env fuel) st' ∧
  (env_reap_children env (history st' ++ [reap_children]) = Returns tt →
   schedule_next_run env (set_history (history st' ++ [reap_children]) st')
   = (Ok tt, st_end) →
   run_tick env st = (Ok tt, st_end) ∧
   run_loop env (S fuel) st = run_loop env fuel st_end).
Proof.
  intros Hterm Hmid Hdir Hwrite He st'.
  assert (Hsave : run_save_cache env st_mid = (Ok tt, st')).
  { unfold run_save_cache. step. rewrite Hdir. step.
    unfold save_cache, try_except. step. rewrite Hwrite. step. rewrite He.
    step. reflexivity. }
  assert (Hsteps : ∀ B (k : M B),
            (run_sighup env;; run_ha env;; run_cluster_config env;;
             run_save_cache env;; k) st = k st').
  { intros B k. revert Hmid. unfold mbind, M_bind.
    destruct (run_sighup env st) as [[[]|?|] s1]; [|discriminate..].
    destruct (run_ha env s1) as [[[]|?|] s2]; [|discriminate..].
    destruct (run_cluster_config env s2) as [[[]|?|] s3]; [|discriminate..].
    intros [= ->]. by rewrite Hsave. }
  assert (Hloop : run_loop env (S fuel) st =
                  (call reap_children (env_reap_children env);;
                   schedule_next_run env;; run_loop env fuel) st').
  { rewrite run_loop_unfold by done. rewrite <- Hsteps.
    unfold run_tick_end, mbind, M_bind.
    destruct (run_sighup env st) as [[[]|?|] s1]; [|done..].
    destruct (run_ha env s1) as [[[]|?|] s2]; [|done..].
    destruct (run_cluster_config env s2) as [[[]|?|] s3]; [|done..].
    destruct (run_save_cache env s3) as [[[]|?|] s4]; [|done..].
    destruct (call reap_children (env_reap_children env) s4)
      as [[[]|?|] s5]; [|done..].
    destruct (schedule_next_run env s5) as [[[]|?|] s6]; done. }
  split; [exact Hsave|]. split; [exact Hloop|].
  intros Hreap Hschedule. split.
  - unfold run_tick, run_tick_end.
    transitivity ((call reap_children (env_reap_children env);;
                   schedule_next_run env) st').
    + rewrite <- Hsteps. unfold mbind, M_bind.
      destruct (run_sighup env st) as [[[]|?|] s1]; [|done..].
      destruct (run_ha env s1) as [[[]|?|] s2]; [|done..].
      destruct (run_cluster_config env s2) as [[[]|?|] s3]; [|done..].
      destruct (run_save_cache env s3) as [[[]|?|] s4]; done.
    + step. rewrite Hreap. step. exact Hschedule.
  - rewrite Hloop. step. rewrite Hreap. step. rewrite Hschedule.
    reflexivity.
Qed.

End Tick.

Lemma reload_failure_does_not_stop_the_loop_witness :
  let env := sample_env (sample_config (PyDict ∅)) (flaky_fetch 0) true false
               false (Raises OtherException) (Returns tt) in
  let st0 := sample_state 0 true in
  let st := set_history [config_reload_local_configuration]
              (set_received_sighup false st0) in
  let st1 := (reload_config_try env st).2 in
  let st2 := set_history (history st1 ++ [reload_failure env (history st1)]) st1 in
  reload_config env st = (Ok tt, st2) ∧
  run_loop env 1 st0 =
  (run_ha env;; run_cluster_config env;; run_tick_end env;; run_loop env 0) st2.
Proof.
  intros env st0 st st1 st2.
  destruct (reload_failure_does_not_stop_the_loop env st st1 OtherException 0)
    as (Hreload & Hsighup & _).
  - vm_compute. reflexivity.
  - reflexivity.
  - split; [exact Hreload|]. apply Hsighup; reflexivity.
Defined.

Example failed_reload_scenario :
  let env := sample_env (sample_config (PyDict ∅)) (flaky_fetch 0) false false
               false (Raises OtherException) (Returns tt) in
  history (run_sighup env (sample_state 0 true)).2 =
  [config_reload_local_configuration;
   dcs_reload_config (sample_config (PyDict ∅));
   logger ERROR "Failed to reload config_file=postgres0.yml"].
Proof. vm_compute. reflexivity. Qed.

Lemma cache_failure_is_logged_and_not_fatal_witness :
  let env := sample_env example_config (flaky_fetch 0) true false false
               (Returns tt) (Raises OtherException) in
  let st := sample_state 0 false in
  let st_mid := ((run_sighup env;; run_ha env;; run_cluster_config env) st).2 in
  let st' := set_history
               (history st_mid ++ [postgresql_data_directory_empty;
                                   config_save_cache;
                                   logger ERROR cache_failure]) st_mid in
  let st_end := (run_tick env st).2 in
  run_save_cache env st_mid = (Ok tt, st') ∧
  run_tick env st = (Ok tt, st_end) ∧
  run_loop env 1 st = run_loop env 0 st_end.
Proof.
  intros env st st_mid st' st_end.
  destruct (cache_failure_is_logged_and_not_fatal env st st_mid st_end
              OtherException 0) as (Hsave & _ & Hrest).
  - reflexivity.
  - vm_compute. reflexivity.
  - reflexivity.
  - reflexivity.
  - reflexivity.
  - split; [exact Hsave|]. apply Hrest.
    + reflexivity.
    + vm_compute. reflexivity.
Defined.

Example failed_cache_write_scenario :
  let env := without_cluster
               (sample_env example_config (flaky_fetch 0) true false false
                  (Returns tt) (Raises OtherException)) in
  run_tick env (sample_state 0 false) =
  (Ok tt, mkState ∅ 24000000 false false
            [ha_run_cycle; logger INFO "no action";
             postgresql_data_directory_empty; config_save_cache;
             logger ERROR cache_failure; reap_children;
             time_sleep 1000; overrun_warning]).
Proof. vm_compute. reflexivity. Qed.

(** ** Bootstrap of the dynamic configuration *)

Section Bootstrap.

Variable env : Env.

Lemma attempt_fetch_raises (st : State) (e : exn) :
  env_get_cluster env (history st ++ [dcs_get_cluster]) = Raises e →
  load_dynamic_configuration_attempt env st =
  (Raise e, set_history (history st ++ [dcs_get_cluster]) st).
Proof.
  intros Hfetch. unfold load_dynamic_configuration_attempt. step.
  rewrite Hfetch. reflexivity.
Qed.

(** One failed fetch: a warning, and the loop is back at its start. *)
Lemma load_dynamic_configuration_retry (st : State) (fuel : nat) :
  env_get_cluster env (history st ++ [dcs_get_cluster]) = Raises DCSError →
  load_dynamic_configuration env (S fuel) st =
  load_dynamic_configuration env fuel
    (set_history (after_failure (history st)) st).
Proof.
  intros Hfetch. cbn [load_dynamic_configuration].
  unfold try_except. unfold mbind at 1 2, M_bind at 1 2.
  rewrite (attempt_fetch_raises _ _ Hfetch). step.
  unfold set_history, after_failure, retry_warning; cbn.
  rewrite <- ?app_assoc. reflexivity.
Qed.

Lemma load_dynamic_configuration_retries (n : nat) :
  ∀ st : State,
    (∀ k, (k < n)%nat →
       env_get_cluster env (after_failures k (history st) ++ [dcs_get_cluster])
       = Raises DCSError) →
    ∀ fuel,
      load_dynamic_configuration env (n + fuel) st =
      load_dynamic_configuration env fuel
        (set_history (after_failures n (history st)) st).
Proof.
  induction n as [|n IH]; intros st Hfail fuel.
  - cbn. by destruct st.
  - replace (S n + fuel)%nat with (S (n + fuel)) by lia.
    rewrite load_dynamic_configuration_retry by (apply (Hfail 0%nat); lia).
    rewrite IH.
    + reflexivity.
    + intros k Hk. apply (Hfail (S k)). lia.
Qed.

(** The history only grows. *)
Lemma attempt_history (st : State) :
  history st ++ [dcs_get_cluster] `prefix_of`
  history (load_dynamic_configuration_attempt env st).2.
Proof.
  unfold load_dynamic_configuration_attempt. step.
  destruct (env_get_cluster env _) as [cluster|e]; step; [|grows].
  destruct (has_cluster_config cluster); step.
  - destruct (env_set_dynamic_configuration env _) as [[|]|e]; step; grows.
  - destruct (negb _ && _); step; [|grows].
    destruct (config_getitem _ _) as [b|e]; step; [|grows].
    destruct (py_getitem b "dcs") as [d|e]; step; [|grows].
    destruct (env_set_dynamic_configuration env _) as [[|]|e]; step; grows.
Qed.

Lemma load_dynamic_configuration_history (fuel : nat) :
  ∀ st : State,
    history st `prefix_of` history (load_dynamic_configuration env fuel st).2.
Proof.
  induction fuel as [|fuel IH]; intros st; [by exists []; rewrite app_nil_r|].
  cbn [load_dynamic_configuration]. unfold try_except.
  unfold mbind at 1 2, M_bind at 1 2.
  pose proof (attempt_history st) as Hgrow.
  destruct (load_dynamic_configuration_attempt env st) as [[[]|e|] st1];
    cbn [snd] in Hgrow.
  - step. etrans; [|exact Hgrow]. grows.
  - destruct (is_DCSError e); step.
    + etrans; [|apply IH]. cbn [history set_history].
      etrans; [|apply prefix_app_r; reflexivity].
      etrans; [|exact Hgrow]. grows.
    + etrans; [|exact Hgrow]. grows.
  - step. etrans; [|exact Hgrow]. grows.
Qed.

(** A normal return comes after a fetch that returned. *)
Lemma load_dynamic_configuration_returns (fuel : nat) :
  ∀ st st' : State,
    load_dynamic_configuration env fuel st = (Ok tt, st') →
    ∃ h cluster,
      history st `prefix_of` h ∧
      h ++ [dcs_get_cluster] `prefix_of` history st' ∧
      env_get_cluster env (h ++ [dcs_get_cluster]) = Returns cluster.
Proof.
  induction fuel as [|fuel IH]; intros st st' Hload; [discriminate|].
  destruct (env_get_cluster env (history st ++ [dcs_get_cluster]))
    as [cluster|e] eqn:Hfetch.
  - exists (history st), cluster. split; [reflexivity|]. split; [|exact Hfetch].
    revert Hload. cbn [load_dynamic_configuration]. unfold try_except.
    unfold mbind at 1 2, M_bind at 1 2.
    pose proof (attempt_history st) as Hgrow.
    destruct (load_dynamic_configuration_attempt env st) as [[[]|e|] st1];
      cbn [snd] in Hgrow.
    + step. intros [= <-]. exact Hgrow.
    + destruct (is_DCSError e); step; [|discriminate].
      intros Hload.
      pose proof (load_dynamic_configuration_history fuel
                    (set_history (history st1 ++ [retry_warning]) st1)) as Hrest.
      unfold retry_warning in Hrest. rewrite Hload in Hrest.
      cbn [snd history set_history] in Hrest.
      etrans; [exact Hgrow|]. etrans; [|exact Hrest].
      apply prefix_app_r. reflexivity.
    + step. discriminate.
  - revert Hload. cbn [load_dynamic_configuration]. unfold try_except.
    unfold mbind at 1 2, M_bind at 1 2.
    rewrite (attempt_fetch_raises _ _ Hfetch).
    destruct (is_DCSError e); step; [|discriminate].
    intros Hload. apply IH in Hload as (h & cluster & Hpre & Hpost & Hok).
    exists h, cluster. split; [|done].
    etrans; [|exact Hpre]. cbn [history set_history]. grows.
Qed.

(** C5: as long as the fetch raises [DCSError], [load_dynamic_configuration]
    logs a warning and fetches again at once: [n] failures in a row leave
    it at the start of the loop, with [n] fetches and [n] warnings in the
    history and nothing else, whatever [n] is; it has not returned by then;
    it returns as soon as an attempt goes through to the [break]; and
    whenever it returns, a fetch has returned. *)
Theorem bootstrap_retries_until_fetch_succeeds (st : State) (n : nat) :
  (∀ k, (k < n)%nat →
     env_get_cluster env (after_failures k (history st) ++ [dcs_get_cluster])
     = Raises DCSError) →
  let st_n := set_history (after_failures n (history st)) st in
  (∀ fuel,
     load_dynamic_configuration env (n + fuel) st =
     load_dynamic_configuration env fuel st_n) ∧
  load_dynamic_configuration env n st = (OutOfFuel, st_n) ∧
  (∀ fuel st',
     load_dynamic_configuration_attempt env st_n = (Ok tt, st') →
     load_dynamic_configuration env (n + S fuel) st = (Ok tt, st')) ∧
  (∀ fuel st',
     load_dynamic_configuration env fuel st = (Ok tt, st') →
     ∃ h cluster,
       history st `prefix_of` h ∧
       h ++ [dcs_get_cluster] `prefix_of` history st' ∧
       env_get_cluster env (h ++ [dcs_get_cluster]) = Returns cluster).
Proof.
  intros Hfail st_n.
  pose proof (load_dynamic_configuration_retries n st Hfail) as Hretry.
  fold st_n in Hretry.
  split; [exact Hretry|]. split; [|split].
  - specialize (Hretry 0%nat). rewrite Nat.add_0_r in Hretry.
    rewrite Hretry. reflexivity.
  - intros fuel st' Hattempt. rewrite Hretry.
    cbn [load_dynamic_configuration]. unfold try_except.
    unfold mbind at 1 2, M_bind at 1 2. rewrite Hattempt. reflexivity.
  - intros fuel st'. apply load_dynamic_configuration_returns.
Qed.

(** With a store that never answers, no amount of fuel is enough. *)
Lemma bootstrap_never_gives_up (st : State) (fuel : nat) :
  (∀ h, env_get_cluster env h = Raises DCSError) →
  load_dynamic_configuration env fuel st =
  (OutOfFuel, set_history (after_failures fuel (history st)) st).
Proof.
  intros Hdown.
  pose proof (load_dynamic_configuration_retries fuel st (λ k _, Hdown _) 0%nat)
    as Hretry.
  rewrite Nat.add_0_r in Hretry. rewrite Hretry. reflexivity.
Qed.

(** What an attempt does when the fetch finds no configuration in the
    cluster, none is held locally and there is a bootstrap section with a
    [dcs] entry. *)
Lemma attempt_bootstrap_section
    (st : State) (cluster : option Cluster) (bootstrap dcs : PyVal) :
  env_get_cluster env (history st ++ [dcs_get_cluster]) = Returns cluster →
  has_cluster_config cluster = false →
  let config := env_config env (history st ++ [dcs_get_cluster]) in
  truthy (dynamic_configuration config) = false →
  local_configuration config !! "bootstrap" = Some bootstrap →
  py_getitem bootstrap "dcs" = Returns dcs →
  let h := history st ++ [dcs_get_cluster; config_set_dynamic_configuration dcs] in
  load_dynamic_configuration_attempt env st =
  match env_set_dynamic_configuration env h with
  | Returns true =>
      let h' := h ++ [dcs_reload_config (env_config env h)] in
      (of_answer (env_dcs_reload_config env h'), set_history h' st)
  | Returns false => (Ok tt, set_history h st)
  | Raises e => (Raise e, set_history h st)
  end.
Proof.
  intros Hfetch Hnone config Hdyn Hboot Hdcs h.
  unfold load_dynamic_configuration_attempt. step. rewrite Hfetch. step.
  rewrite Hnone. step. fold config. rewrite Hdyn.
  unfold config_contains, config_getitem. rewrite Hboot.
  rewrite bool_decide_eq_true_2 by eauto. step. rewrite Hdcs. step.
  fold h. destruct (env_set_dynamic_configuration env h) as [[|]|e]; step;
    unfold set_history; cbn; rewrite <- ?app_assoc; reflexivity.
Qed.

(** C7, amended: when the fetch finds no configuration in the cluster, no
    dynamic configuration is held locally and the local configuration has a
    bootstrap section with a [dcs] entry, the bootstrap hands that entry to
    [set_dynamic_configuration]; if that reports a change, it calls
    [dcs.reload_config] with the configuration object, and returns once
    that call has returned; if it reports none, it returns without calling
    the store. *)
Theorem bootstrap_seeds_store_on_change
    (st : State) (cluster : option Cluster) (bootstrap dcs : PyVal)
    (changed : bool) (fuel : nat) :
  env_get_cluster env (history st ++ [dcs_get_cluster]) = Returns cluster →
  has_cluster_config cluster = false →
  let config := env_config env (history st ++ [dcs_get_cluster]) in
  truthy (dynamic_configuration config) = false →
  local_configuration config !! "bootstrap" = Some bootstrap →
  py_getitem bootstrap "dcs" = Returns dcs →
  let h := history st ++ [dcs_get_cluster; config_set_dynamic_configuration dcs] in
  env_set_dynamic_configuration env h = Returns changed →
  let h' := h ++ [dcs_reload_config (env_config env h)] in
  if changed then
    load_dynamic_configuration_attempt env st =
    (of_answer (env_dcs_reload_config env h'), set_history h' st) ∧
    (env_dcs_reload_config env h' = Returns tt →
     load_dynamic_configuration env (S fuel) st = (Ok tt, set_history h' st))
  else
    load_dynamic_configuration env (S fuel) st = (Ok tt, set_history h st).
Proof.
  intros Hfetch Hnone config Hdyn Hboot Hdcs h Hset h'.
  pose proof (attempt_bootstrap_section st cluster bootstrap dcs
                Hfetch Hnone Hdyn Hboot Hdcs) as Hattempt.
  cbn zeta in Hattempt. fold h in Hattempt. rewrite Hset in Hattempt.
  destruct changed.
  - fold h' in Hattempt. split; [exact Hattempt|]. intros Hpush.
    rewrite Hpush in Hattempt.
    cbn [load_dynamic_configuration]. unfold try_except.
    unfold mbind at 1 2, M_bind at 1 2. rewrite Hattempt. reflexivity.
  - cbn [load_dynamic_configuration]. unfold try_except.
    unfold mbind at 1 2, M_bind at 1 2. rewrite Hattempt. reflexivity.
Qed.

End Bootstrap.

Lemma bootstrap_retries_until_fetch_succeeds_witness :
  let env := sample_env (sample_config (PyDict (<["ttl" := PyInt 30]> ∅)))
               (flaky_fetch 2) true false false (Returns tt) (Returns tt) in
  let st := sample_state 0 false in
  let st_2 := set_history (after_failures 2 (history st)) st in
  load_dynamic_configuration env 2 st = (OutOfFuel, st_2) ∧
  load_dynamic_configuration env 3 st =
  (Ok tt, (load_dynamic_configuration_attempt env st_2).2).
Proof.
  intros env st st_2.
  destruct (bootstrap_retries_until_fetch_succeeds env st 2)
    as (_ & Hout & Hret & _).
  - intros k Hk. destruct k as [|[|k]]; [reflexivity|reflexivity|lia].
  - split; [exact Hout|]. apply (Hret 0%nat). vm_compute. reflexivity.
Defined.

Example bootstrap_seed_scenario :
  let env := sample_env (sample_config (PyDict (<["ttl" := PyInt 30]> ∅)))
               (flaky_fetch 0) true false false (Returns tt) (Returns tt) in
  history (load_dynamic_configuration env 1 (sample_state 0 false)).2 =
  [dcs_get_cluster;
   config_set_dynamic_configuration (PyDict (<["ttl" := PyInt 30]> ∅));
   dcs_reload_config (sample_config (PyDict (<["ttl" := PyInt 30]> ∅)))].
Proof. vm_compute. reflexivity. Qed.

(** C7 as written fails: the cluster has no configuration, none is held
    locally and there is a bootstrap section, whose [dcs] entry is empty;
    applying it changes nothing, and the bootstrap returns without a call
    to the store. *)
Lemma bootstrap_seed_skipped_when_unchanged :
  let env := sample_env (sample_config (PyDict ∅)) (flaky_fetch 0)
               false false false (Returns tt) (Returns tt) in
  let st := sample_state 0 false in
  let config := env_config env (history st ++ [dcs_get_cluster]) in
  env_get_cluster env (history st ++ [dcs_get_cluster]) = Returns None ∧
  has_cluster_config None = false ∧
  truthy (dynamic_configuration config) = false ∧
  config_contains config "bootstrap" = true ∧
  load_dynamic_configuration env 1 st =
  (Ok tt, set_history [dcs_get_cluster;
                       config_set_dynamic_configuration (PyDict ∅)] st) ∧
  count_events is_dcs_reload_config
    (history (load_dynamic_configuration env 1 st).2) = 0%nat.
Proof. vm_compute. repeat split. Qed.

Lemma bootstrap_seeds_store_on_change_witness :
  let env := sample_env (sample_config (PyDict (<["ttl" := PyInt 30]> ∅)))
               (flaky_fetch 0) true false false (Returns tt) (Returns tt) in
  let st := sample_state 0 false in
  let dcs := PyDict (<["ttl" := PyInt 30]> ∅) in
  let h := [dcs_get_cluster; config_set_dynamic_configuration dcs] in
  let h' := h ++ [dcs_reload_config (env_config env h)] in
  load_dynamic_configuration_attempt env st =
  (of_answer (env_dcs_reload_config env h'), set_history h' st) ∧
  (env_dcs_reload_config env h' = Returns tt →
   load_dynamic_configuration env 1 st = (Ok tt, set_history h' st)).
Proof.
  apply (bootstrap_seeds_store_on_change
           (sample_env (sample_config (PyDict (<["ttl" := PyInt 30]> ∅)))
              (flaky_fetch 0) true false false (Returns tt) (Returns tt))
           (sample_state 0 false) None
           (PyDict (<["dcs" := PyDict (<["ttl" := PyInt 30]> ∅)]> ∅))
           (PyDict (<["ttl" := PyInt 30]> ∅)) true 0).
  - reflexivity.
  - reflexivity.
  - reflexivity.
  - vm_compute. reflexivity.
  - vm_compute. reflexivity.
  - reflexivity.
Defined.

(** * Further properties *)

(** ** Tags, again *)

(** Without a tags section the derived tags are empty: the daemon is
    neither [nofailover] nor [noloadbalance] and replicates from nobody. *)
Theorem no_tags_section_no_tags (config : Config) (st : State) :
  local_configuration config !! "tags" = None →
  get_tags config = Returns ∅ ∧
  (tags st = ∅ →
   nofailover st = false ∧ noloadbalance st = false ∧ replicatefrom st = PyNone).
Proof.
  intros Hnone. split.
  - unfold get_tags, config_get. rewrite Hnone. cbn.
    by rewrite map_filter_empty.
  - intros Hempty. unfold nofailover, noloadbalance, replicatefrom, tag_flag.
    rewrite Hempty, !lookup_empty. done.
Qed.

Lemma no_tags_section_no_tags_witness :
  get_tags (mkConfig ∅ PyNone "postgres0.yml") = Returns ∅ ∧
  (tags (sample_state 0 false) = ∅ →
   nofailover (sample_state 0 false) = false ∧
   noloadbalance (sample_state 0 false) = false ∧
   replicatefrom (sample_state 0 false) = PyNone).
Proof.
  apply (no_tags_section_no_tags (mkConfig ∅ PyNone "postgres0.yml")
           (sample_state 0 false)).
  reflexivity.
Defined.

(** [replicatefrom] is not a reserved name: the tag reaches the daemon as
    it is in the configuration, falsy or not. *)
Theorem replicatefrom_is_not_filtered
    (config : Config) (raw : gmap string PyVal) (st : State) :
  config_get config "tags" (PyDict ∅) = PyDict raw →
  get_tags config = Returns (tags st) →
  replicatefrom st = default PyNone (raw !! "replicatefrom").
Proof.
  intros Hraw Htags. rewrite (get_tags_of_mapping _ _ Hraw) in Htags.
  injection Htags as Htags. unfold replicatefrom.
  rewrite <- Htags, get_tags_lookup.
  destruct (raw !! "replicatefrom") as [v|]; [|done].
  by rewrite bool_decide_eq_false_2
    by (rewrite reserved_tags_spec; intros [?|[?|?]]; discriminate).
Qed.

Lemma replicatefrom_is_not_filtered_witness :
  let st := mkState (<["clonefrom" := PyBool true]>
                       (<["replicatefrom" := PyStr ""]> ∅)) 0 false false [] in
  replicatefrom st = default PyNone (example_tags !! "replicatefrom").
Proof.
  apply (replicatefrom_is_not_filtered example_config example_tags).
  - reflexivity.
  - vm_compute. reflexivity.
Defined.

(** Deriving the tags is idempotent: a configuration whose tags section is
    already a derived mapping yields that mapping again. *)
Theorem get_tags_idempotent
    (config config' : Config) (raw derived : gmap string PyVal) :
  config_get config "tags" (PyDict ∅) = PyDict raw →
  get_tags config = Returns derived →
  config_get config' "tags" (PyDict ∅) = PyDict derived →
  get_tags config' = Returns derived.
Proof.
  intros Hraw Hderived Hraw'.
  rewrite (get_tags_of_mapping _ _ Hraw) in Hderived.
  injection Hderived as <-.
  rewrite (get_tags_of_mapping _ _ Hraw'). f_equal.
  apply map_eq. intros tag. rewrite !get_tags_lookup.
  destruct (raw !! tag) as [v|]; [|done].
  destruct (bool_decide (tag ∈ reserved_tags) && negb (truthy v)) eqn:Hdrop;
    [done|]. by rewrite Hdrop.
Qed.

Lemma get_tags_idempotent_witness :
  get_tags (tags_only_config
              (PyDict (<["clonefrom" := PyBool true]>
                         (<["replicatefrom" := PyStr ""]> ∅)))) =
  Returns (<["clonefrom" := PyBool true]> (<["replicatefrom" := PyStr ""]> ∅)).
Proof.
  apply (get_tags_idempotent example_config _ example_tags).
  - reflexivity.
  - vm_compute. reflexivity.
  - reflexivity.
Defined.

(** ** Signals *)

Lemma deliver_sigterm_set (n : nat) :
  ∀ st, received_sigterm st = true → deliver sigterm_handler n st = st.
Proof.
  induction n as [|n IH]; intros st Hset; [done|].
  cbn [deliver]. unfold sigterm_handler. step. rewrite Hset. cbn.
  by apply IH.
Qed.

(** SIGTERM: the first delivery sets the flag and raises [SystemExit]; any
    later delivery returns without touching anything, so that the state
    after any number of deliveries is that after one. *)
Theorem sigterm_first_delivery_only (st : State) (n : nat) :
  received_sigterm st = false →
  sigterm_handler st = (Raise SystemExit, set_received_sigterm true st) ∧
  sigterm_handler (set_received_sigterm true st) =
    (Ok tt, set_received_sigterm true st) ∧
  deliver sigterm_handler (S n) st = set_received_sigterm true st.
Proof.
  intros Hclear.
  assert (Hfirst : sigterm_handler st =
                   (Raise SystemExit, set_received_sigterm true st)).
  { unfold sigterm_handler. step. rewrite Hclear. reflexivity. }
  split; [exact Hfirst|]. split; [reflexivity|].
  cbn [deliver]. rewrite Hfirst. cbn [snd].
  by apply deliver_sigterm_set.
Qed.

Lemma sigterm_first_delivery_only_witness :
  let st := sample_state 0 false in
  sigterm_handler st = (Raise SystemExit, set_received_sigterm true st) ∧
  sigterm_handler (set_received_sigterm true st) =
    (Ok tt, set_received_sigterm true st) ∧
  deliver sigterm_handler 3 st = set_received_sigterm true st.
Proof.
  apply (sigterm_first_delivery_only (sample_state 0 false) 2). reflexivity.
Defined.

(** ** Relations kept along a computation *)

#[local] Instance keeps_reflexive {A} (field : State → A) : Reflexive (keeps field).
Proof. intros st. reflexivity. Qed.

#[local] Instance keeps_transitive {A} (field : State → A) : Transitive (keeps field).
Proof. intros s1 s2 s3 H12 H23. unfold keeps in *. congruence. Qed.

#[local] Instance both_reflexive R1 R2 :
  Reflexive R1 → Reflexive R2 → Reflexive (both R1 R2).
Proof. intros H1 H2 st. split; reflexivity. Qed.

#[local] Instance both_transitive R1 R2 :
  Transitive R1 → Transitive R2 → Transitive (both R1 R2).
Proof. intros H1 H2 s1 s2 s3 [? ?] [? ?]. split; etrans; eauto. Qed.

#[local] Instance extends_by_reflexive p : Reflexive (extends_by p).
Proof. intros st. exists []. split; [by rewrite app_nil_r|constructor]. Qed.

#[local] Instance extends_by_transitive p : Transitive (extends_by p).
Proof.
  intros s1 s2 s3 (k1 & H1 & F1) (k2 & H2 & F2). exists (k1 ++ k2). split.
  - by rewrite H2, H1, app_assoc.
  - by apply Forall_app.
Qed.

Section Maintains.

Context (R : State → State → Prop) `{!Reflexive R} `{!Transitive R}.

Lemma maintains_unchanged {A} (m : M A) :
  (∀ st, (m st).2 = st) → maintains R m.
Proof. intros Hm st. by rewrite Hm. Qed.

Lemma maintains_ret {A} (a : A) : maintains R (mret a : M A).
Proof. intros st. reflexivity. Qed.

Lemma maintains_bind {A B} (m : M A) (k : A → M B) :
  maintains R m → (∀ a, maintains R (k a)) → maintains R (m ≫= k).
Proof.
  intros Hm Hk st. unfold mbind, M_bind. specialize (Hm st).
  destruct (m st) as [[a|e|] st1]; cbn [snd] in *; [|done..].
  etrans; [exact Hm|]. apply Hk.
Qed.

Lemma maintains_try_except {A} (body handler : M A) (catches : exn → bool) :
  maintains R body → maintains R handler →
  maintains R (try_except body catches handler).
Proof.
  intros Hbody Hhandler st. unfold try_except. specialize (Hbody st).
  destruct (body st) as [[a|e|] st1]; cbn [snd] in *; [done| |done].
  destruct (catches e); [|done]. etrans; [exact Hbody|]. apply Hhandler.
Qed.

Lemma maintains_try_finally {A} (body : M A) (final : M unit) :
  maintains R body → maintains R final →
  maintains R (try_finally body final).
Proof.
  intros Hbody Hfinal st. unfold try_finally. specialize (Hbody st).
  destruct (body st) as [[a|e|] st1]; cbn [snd] in *; [| |done];
    specialize (Hfinal st1);
    destruct (final st1) as [[[]|e'|] st2]; cbn [snd] in *; etrans; eauto.
Qed.

Lemma maintains_modify (f : State → State) :
  (∀ st, R st (f st)) → maintains R (modify f).
Proof. intros Hf st. apply Hf. Qed.

Lemma maintains_call {A} (e : event) (reply : list event → answer A) :
  (∀ st, R st (set_history (history st ++ [e]) st)) →
  maintains R (call e reply).
Proof. intros He st. apply He. Qed.

Lemma maintains_log (lvl : level) (msg : string) :
  (∀ st, R st (set_history (history st ++ [logger lvl msg]) st)) →
  maintains R (log lvl msg).
Proof. intros He st. apply He. Qed.

End Maintains.

(** Discharges what a single state change owes to a relation built from
    [keeps], [extends_by] and [both]. *)
Ltac frame_side :=
  intros ?; unfold both, keeps;
  repeat match goal with |- _ ∧ _ => split end;
  try reflexivity;
  first [ reflexivity
        | by (exists []; split; [by rewrite app_nil_r|constructor])
        | by (eexists [_]; split; [reflexivity|by repeat constructor]) ].

(** Walks through a computation, one construct at a time. *)
Ltac maintain :=
  repeat first
    [ solve [apply _]
    | match goal with |- ∀ _, maintains _ _ => intros ? end
    | apply maintains_ret
    | apply maintains_bind
    | apply maintains_try_except
    | apply maintains_unchanged; reflexivity
    | apply maintains_modify; [..|frame_side]
    | apply maintains_call; [..|frame_side]
    | apply maintains_log; [..|frame_side]
    | match goal with |- maintains _ (if ?b then _ else _) => destruct b end
    | progress cbn zeta ].

(** ** Scheduling, again *)

Section SchedulingMore.

Variable env : Env.

(** [schedule_next_run] changes nothing but the anchor, and blocks exactly
    once: on a sleep of a millisecond when the time is up, on a watch with
    a positive timeout otherwise, never on both.  The watch never gets a
    timeout that is zero or negative. *)
Theorem schedule_next_run_blocks_once (st : State) :
  let st' := (schedule_next_run env st).2 in
  tags st' = tags st ∧
  received_sighup st' = received_sighup st ∧
  received_sigterm st' = received_sigterm st ∧
  ((nap_time_at env st ≤ 0 ∧
    (issued st st' = [time_sleep 1000; overrun_warning] ∨
     issued st st' = [time_sleep 1000])) ∨
   (0 < nap_time_at env st ∧
    issued st st' = [dcs_watch (nap_time_at env st)])).
Proof.
  unfold issued.
  destruct (Z.le_gt_cases (nap_time_at env st) 0) as [Hover|Hwait].
  - rewrite schedule_next_run_overrun by done. cbn zeta.
    destruct (env_sleep env _) as [[]|e]; cbn [snd tags received_sighup
      received_sigterm history]; repeat split; left; (split; [done|]).
    + left. by rewrite <- app_assoc, drop_app_length.
    + right. by rewrite drop_app_length.
  - rewrite schedule_next_run_wait by done. cbn zeta.
    destruct (env_watch env _) as [[|]|e]; cbn [snd tags received_sighup
      received_sigterm history]; repeat split; right; (split; [done|]);
      by rewrite drop_app_length.
Qed.

(** With a clock that does not go backwards while the daemon waits, the
    anchor that [schedule_next_run] leaves is never before the time it
    read on entry, however it ends. *)
Theorem schedule_next_run_anchor_not_in_past (st : State) :
  now_at env st ≤
    env_time env (history st ++ [dcs_watch (nap_time_at env st)]) →
  now_at env st ≤ next_run (schedule_next_run env st).2.
Proof.
  intros Hclock.
  destruct (Z.le_gt_cases (nap_time_at env st) 0) as [Hover|Hwait].
  - rewrite schedule_next_run_overrun by done. cbn zeta.
    destruct (env_sleep env _) as [[]|e]; cbn; lia.
  - rewrite schedule_next_run_wait by done. cbn zeta.
    unfold nap_time_at in Hwait.
    destruct (env_watch env _) as [[|]|e]; cbn; lia.
Qed.

(** With an interval that is not negative, the anchor moves backwards only
    when the watch reports a change. *)
Theorem schedule_next_run_anchor_monotone (st : State) :
  0 ≤ interval_at env st →
  env_watch env (history st ++ [dcs_watch (nap_time_at env st)])
    ≠ Returns true →
  next_run st ≤ next_run (schedule_next_run env st).2.
Proof.
  intros Hinterval Hquiet.
  destruct (Z.le_gt_cases (nap_time_at env st) 0) as [Hover|Hwait].
  - rewrite schedule_next_run_overrun by done. cbn zeta.
    unfold nap_time_at in Hover.
    destruct (env_sleep env _) as [[]|e]; cbn; lia.
  - rewrite schedule_next_run_wait by done. cbn zeta.
    destruct (env_watch env _) as [[|]|e]; cbn; [done|lia..].
Qed.

End SchedulingMore.

Lemma schedule_next_run_anchor_not_in_past_witness :
  let env := sample_env example_config (flaky_fetch 0) true true false
               (Returns tt) (Returns tt) in
  let st := sample_state 9000000 false in
  now_at env st ≤ next_run (schedule_next_run env st).2.
Proof.
  apply (schedule_next_run_anchor_not_in_past
           (sample_env example_config (flaky_fetch 0) true true false
              (Returns tt) (Returns tt))
           (sample_state 9000000 false)).
  vm_compute. discriminate.
Defined.

Lemma schedule_next_run_anchor_monotone_witness :
  let env := quiet_env example_config in
  let st := sample_state 9000000 false in
  next_run st ≤ next_run (schedule_next_run env st).2.
Proof.
  apply (schedule_next_run_anchor_monotone (quiet_env example_config)
           (sample_state 9000000 false)).
  - vm_compute. discriminate.
  - vm_compute. discriminate.
Defined.

(** ** Reload, again *)

Lemma count_events_excluded (p q : event → bool) (k : list event) :
  (∀ e, p e = true → q e = false) →
  Forall (λ e, p e = true) k → count_events q k = 0%nat.
Proof.
  intros Hpq Hk. unfold count_events.
  induction Hk as [|e k He _ IH]; [done|]. cbn. by rewrite (Hpq e He).
Qed.

Lemma count_events_app (p : event → bool) (k1 k2 : list event) :
  count_events p (k1 ++ k2) = (count_events p k1 + count_events p k2)%nat.
Proof. unfold count_events. by rewrite List.filter_app, length_app. Qed.

Lemma issued_app (st st' : State) (k : list event) :
  history st' = history st ++ k → issued st st' = k.
Proof. intros H. unfold issued. by rewrite H, drop_app_length. Qed.

Section ReloadMore.

Variable env : Env.

(** A reload touches neither the anchor nor the signal flags, and issues
    nothing but notifications of the new configuration (to the store, the
    status API and the datastore) and log records. *)
Theorem reload_config_frame (st : State) :
  let st' := (reload_config env st).2 in
  next_run st' = next_run st ∧
  received_sighup st' = received_sighup st ∧
  received_sigterm st' = received_sigterm st ∧
  ∃ k, history st' = history st ++ k ∧
       Forall (λ e, is_reload_event e = true) k.
Proof.
  assert (H : maintains
                (both (keeps next_run)
                   (both (keeps received_sighup)
                      (both (keeps received_sigterm)
                         (extends_by is_reload_event))))
                (reload_config env)).
  { unfold reload_config, reload_config_try. maintain. }
  destruct (H st) as (? & ? & ? & ?). done.
Qed.

(** When nothing fails, a reload replaces the tags by those derived from
    the configuration and then notifies, in this order, the store (with the
    configuration), the status API (with the [restapi] section) and the
    datastore (with the [postgresql] section). *)
Theorem reload_config_notifies_in_order
    (st : State) (derived : gmap string PyVal) (restapi postgresql : PyVal) :
  get_tags (env_config env (history st)) = Returns derived →
  let h1 := history st ++ [dcs_reload_config (env_config env (history st))] in
  env_dcs_reload_config env h1 = Returns tt →
  config_getitem (env_config env h1) "restapi" = Returns restapi →
  let h2 := h1 ++ [api_reload_config restapi] in
  env_api_reload_config env h2 = Returns tt →
  config_getitem (env_config env h2) "postgresql" = Returns postgresql →
  let h3 := h2 ++ [postgresql_reload_config postgresql] in
  env_postgresql_reload_config env h3 = Returns tt →
  reload_config env st = (Ok tt, set_history h3 (set_tags derived st)).
Proof.
  intros Htags h1 Hdcs Hrestapi h2 Hapi Hpostgresql h3 Hpg.
  unfold reload_config, try_except, reload_config_try.
  unfold mbind at 1 2, M_bind at 1 2, read at 1. cbn [fst snd].
  unfold mbind at 1 2, M_bind at 1 2, lift at 1. rewrite Htags. cbn [of_answer].
  step. fold h1. rewrite Hdcs. step. fold h1. rewrite Hrestapi. step.
  fold h1. fold h2. rewrite Hapi. step. fold h1. fold h2.
  rewrite Hpostgresql. step. fold h1. fold h2. fold h3. rewrite Hpg.
  reflexivity.
Qed.

(** When the notification of the store raises an [Exception], the reload
    ends there: the failure is logged, the status API and the datastore are
    not notified, and the tags stay replaced. *)
Theorem reload_config_stops_at_first_failure
    (st : State) (derived : gmap string PyVal) (e : exn) :
  get_tags (env_config env (history st)) = Returns derived →
  let h1 := history st ++ [dcs_reload_config (env_config env (history st))] in
  env_dcs_reload_config env h1 = Raises e →
  is_Exception e = true →
  reload_config env st =
  (Ok tt, set_history (h1 ++ [reload_failure env h1]) (set_tags derived st)).
Proof.
  intros Htags h1 Hdcs He.
  apply (reload_config_caught env st (set_history h1 (set_tags derived st)) e);
    [|exact He].
  unfold reload_config_try.
  unfold mbind at 1 2, M_bind at 1 2, read at 1. cbn [fst snd].
  unfold mbind at 1 2, M_bind at 1 2, lift at 1. rewrite Htags. cbn [of_answer].
  step. fold h1. rewrite Hdcs. reflexivity.
Qed.

(** When the tags section is not a mapping, the reload fails before it has
    done anything: the failure is logged, the tags are those of before and
    no collaborator is notified. *)
Theorem reload_config_malformed_tags (st : State) (section : PyVal) :
  local_configuration (env_config env (history st)) !! "tags" = Some section →
  (∀ d, section ≠ PyDict d) →
  reload_config env st =
  (Ok tt, set_history (history st ++ [reload_failure env (history st)]) st).
Proof.
  intros Hsection Hnot.
  apply (reload_config_caught env st st AttributeError); [|done].
  unfold reload_config_try.
  unfold mbind at 1 2, M_bind at 1 2, read at 1. cbn [fst snd].
  unfold mbind at 1 2, M_bind at 1 2, lift at 1.
  unfold get_tags, config_get. rewrite Hsection. cbn [default].
  destruct section; try reflexivity. by destruct (Hnot d).
Qed.

(** When the configuration has no [restapi] section, the subscript raises
    [KeyError] after the store has been notified: the failure is logged and
    neither the status API nor the datastore is notified. *)
Theorem reload_config_missing_section
    (st : State) (derived : gmap string PyVal) :
  get_tags (env_config env (history st)) = Returns derived →
  let h1 := history st ++ [dcs_reload_config (env_config env (history st))] in
  env_dcs_reload_config env h1 = Returns tt →
  local_configuration (env_config env h1) !! "restapi" = None →
  reload_config env st =
  (Ok tt, set_history (h1 ++ [reload_failure env h1]) (set_tags derived st)).
Proof.
  intros Htags h1 Hdcs Hmissing.
  apply (reload_config_caught env st (set_history h1 (set_tags derived st))
           KeyError); [|done].
  unfold reload_config_try.
  unfold mbind at 1 2, M_bind at 1 2, read at 1. cbn [fst snd].
  unfold mbind at 1 2, M_bind at 1 2, lift at 1. rewrite Htags. cbn [of_answer].
  step. fold h1. rewrite Hdcs. step. fold h1.
  unfold config_getitem. rewrite Hmissing. reflexivity.
Qed.

End ReloadMore.

(** ** The loop *)

Section LoopMore.

Variable env : Env.

Lemma run_tick_maintains :
  maintains (both (keeps received_sigterm) (extends_by is_tick_event))
    (run_tick env).
Proof.
  unfold run_tick, run_sighup, run_ha, run_cluster_config, run_tick_end,
    run_save_cache, save_cache, schedule_next_run, reload_config,
    reload_config_try.
  maintain.
Qed.

Lemma run_loop_maintains (fuel : nat) :
  maintains (both (keeps received_sigterm) (extends_by is_tick_event))
    (run_loop env fuel).
Proof.
  induction fuel as [|fuel IH]; intros st; cbn [run_loop];
    destruct (received_sigterm st); try reflexivity.
  apply (maintains_bind _ _ _ run_tick_maintains (λ _, IH)).
Qed.

(** The loop leaves the termination flag alone and keeps to its own calls:
    it never fetches the cluster afresh, never starts or shuts down the
    status API, never asks whether the cluster is paused, never stops the
    datastore and never deletes the leader key. *)
Theorem run_loop_keeps_to_its_calls (fuel : nat) (st : State) :
  let st' := (run_loop env fuel st).2 in
  received_sigterm st' = received_sigterm st ∧
  ∃ k, history st' = history st ++ k ∧
       Forall (λ e, is_tick_event e = true) k.
Proof. apply run_loop_maintains. Qed.

(** The loop returns only when it finds the termination flag set, which
    nothing in a tick does: started with the flag set it returns at once,
    having issued nothing; started with the flag clear it never returns,
    and ends only by an exception. *)
Theorem run_loop_returns_iff_terminated (fuel : nat) (st : State) :
  (received_sigterm st = true → run_loop env fuel st = (Ok tt, st)) ∧
  (received_sigterm st = false → (run_loop env fuel st).1 ≠ Ok tt).
Proof.
  split.
  - intros Hset. destruct fuel; cbn [run_loop]; by rewrite Hset.
  - revert st. induction fuel as [|fuel IH]; intros st Hclear;
      cbn [run_loop]; rewrite Hclear; [done|].
    unfold mbind, M_bind.
    pose proof (run_tick_maintains st) as [Hflag _]. unfold keeps in Hflag.
    destruct (run_tick env st) as [[[]|e|] st1]; cbn [fst snd] in *; [|done..].
    apply IH. congruence.
Qed.

Lemma deliver_sighup (n : nat) :
  ∀ st, deliver sighup_handler (S n) st = set_received_sighup true st.
Proof.
  induction n as [|n IH]; intros st; [reflexivity|].
  change (deliver sighup_handler (S (S n)) st)
    with (deliver sighup_handler (S n) (set_received_sighup true st)).
  rewrite IH. reflexivity.
Qed.

(** Reload requests coalesce: however many times SIGHUP was delivered since
    the last tick, the next tick reloads the local configuration once, and
    leaves the flag cleared whatever the reload does; with no delivery it
    does not reload. *)
Theorem sighup_deliveries_coalesce (st : State) (n : nat) :
  let st1 := deliver sighup_handler (S n) st in
  let st' := (run_sighup env st1).2 in
  received_sighup st' = false ∧
  count_events is_reload_local_configuration (issued st1 st') = 1%nat ∧
  (received_sighup st = false → run_sighup env st = (Ok tt, st)).
Proof.
  cbn zeta. rewrite deliver_sighup. split; [|split].
  - unfold run_sighup. step.
    destruct (env_reload_local_configuration env _) as [[|]|e]; cbn; try done.
    match goal with |- received_sighup (reload_config env ?s).2 = _ =>
      destruct (reload_config_frame env s) as (_ & -> & _) end.
    reflexivity.
  - unfold run_sighup. step.
    destruct (env_reload_local_configuration env _) as [[|]|e]; cbn [of_answer];
      try (cbn; unfold issued; cbn; by rewrite drop_app_length).
    match goal with |- context [reload_config env ?s] =>
      destruct (reload_config_frame env s) as (_ & _ & _ & k & Hk & Hall) end.
    cbn [history set_history set_received_sighup] in Hk.
    erewrite issued_app by (rewrite Hk, <- app_assoc; reflexivity).
    rewrite count_events_app.
    rewrite (count_events_excluded is_reload_event
               is_reload_local_configuration k)
      by first [exact Hall | by intros []].
    reflexivity.
  - intros Hclear. unfold run_sighup. step. by rewrite Hclear.
Qed.

(** Outside [reload_config] and [save_cache] a tick catches nothing: an
    exception raised by [reload_local_configuration] (the SIGHUP flag
    already cleared) or by the HA cycle ends the tick there, and the loop
    with it. *)
Theorem tick_failures_end_the_loop (st : State) (e : exn) (fuel : nat) :
  received_sigterm st = false →
  (received_sighup st = true →
   env_reload_local_configuration env
     (history st ++ [config_reload_local_configuration]) = Raises e →
   run_loop env (S fuel) st =
   (Raise e, set_history (history st ++ [config_reload_local_configuration])
               (set_received_sighup false st))) ∧
  (received_sighup st = false →
   env_run_cycle env (history st ++ [ha_run_cycle]) = Raises e →
   run_loop env (S fuel) st =
   (Raise e, set_history (history st ++ [ha_run_cycle]) st)).
Proof.
  intros Hterm. split; intros Hhup Hraise; rewrite run_loop_unfold by done.
  - unfold mbind at 1, M_bind at 1. unfold run_sighup. step.
    rewrite Hhup. step. rewrite Hraise. reflexivity.
  - unfold mbind at 1, M_bind at 1. unfold run_sighup. step.
    rewrite Hhup. step. unfold run_ha. step. rewrite Hraise. reflexivity.
Qed.

(** A quiet tick: with no SIGHUP pending, a cached cluster without
    configuration and collaborators that return, the tick runs the HA
    cycle, logs its status, checks the data directory, saves the cache
    unless the directory is empty, reaps children and schedules the next
    run, and issues nothing else. *)
Theorem quiet_tick (st : State) (status : string) (empty : bool) :
  received_sighup st = false →
  env_run_cycle env (history st ++ [ha_run_cycle]) = Returns status →
  let h1 := history st ++ [ha_run_cycle; logger INFO status] in
  has_cluster_config (env_cluster env h1) = false →
  let h2 := h1 ++ [postgresql_data_directory_empty] in
  env_data_directory_empty env h2 = Returns empty →
  (empty = false →
   env_persist_cache env (h2 ++ [config_save_cache]) = Returns tt) →
  let h3 := h2 ++ (if empty then [] else [config_save_cache]) ++ [reap_children] in
  env_reap_children env h3 = Returns tt →
  run_tick env st = schedule_next_run env (set_history h3 st).
Proof.
  intros Hhup Hcycle h1 Hcluster h2 Hdir Hpersist h3 Hreap.
  subst h1 h2 h3. destruct empty;
    rewrite <- ?app_assoc in *; cbn [app] in *.
  - unfold run_tick, run_sighup, run_ha, run_cluster_config, run_tick_end,
      run_save_cache.
    step. rewrite Hhup. step. rewrite Hcycle. step. rewrite Hcluster.
    step. rewrite Hdir. step. rewrite Hreap. reflexivity.
  - unfold run_tick, run_sighup, run_ha, run_cluster_config, run_tick_end,
      run_save_cache, save_cache, try_except.
    step. rewrite Hhup. step. rewrite Hcycle. step. rewrite Hcluster.
    step. rewrite Hdir. step. rewrite (Hpersist eq_refl). step. rewrite Hreap.
    reflexivity.
Qed.

End LoopMore.

(** ** Bootstrap, again *)

Section BootstrapMore.

Variable env : Env.

Lemma load_dynamic_configuration_step (st : State) (fuel : nat) :
  load_dynamic_configuration env (S fuel) st =
  match load_dynamic_configuration_attempt env st with
  | (Ok _, st1) => (Ok tt, st1)
  | (Raise e, st1) =>
      if is_DCSError e
      then load_dynamic_configuration env fuel
             (set_history (history st1 ++ [retry_warning]) st1)
      else (Raise e, st1)
  | (OutOfFuel, st1) => (OutOfFuel, st1)
  end.
Proof.
  cbn [load_dynamic_configuration]. unfold try_except.
  unfold mbind at 1 2, M_bind at 1 2.
  destruct (load_dynamic_configuration_attempt env st) as [[[]|e|] st1];
    [reflexivity| |reflexivity].
  destruct (is_DCSError e); reflexivity.
Qed.

(** When the fetched cluster has a configuration, the bootstrap hands it
    to [set_dynamic_configuration] and, if that reports a change, calls
    [dcs.reload_config]; the local bootstrap section plays no part. *)
Theorem bootstrap_merges_cluster_configuration
    (st : State) (cluster : option Cluster) (changed : bool) (fuel : nat) :
  env_get_cluster env (history st ++ [dcs_get_cluster]) = Returns cluster →
  has_cluster_config cluster = true →
  let h := history st ++
           [dcs_get_cluster;
            config_set_dynamic_configuration
              (from_option cluster_config PyNone cluster)] in
  env_set_dynamic_configuration env h = Returns changed →
  let h' := h ++ [dcs_reload_config (env_config env h)] in
  if changed then
    load_dynamic_configuration_attempt env st =
    (of_answer (env_dcs_reload_config env h'), set_history h' st) ∧
    (env_dcs_reload_config env h' = Returns tt →
     load_dynamic_configuration env (S fuel) st = (Ok tt, set_history h' st))
  else
    load_dynamic_configuration env (S fuel) st = (Ok tt, set_history h st).
Proof.
  intros Hfetch Hcfg h Hset h'. subst h h'.
  rewrite <- ?app_assoc in *; cbn [app] in *.
  assert (Hattempt :
    load_dynamic_configuration_attempt env st =
    if changed then
      (of_answer (env_dcs_reload_config env
         (history st ++
          [dcs_get_cluster;
           config_set_dynamic_configuration
             (from_option cluster_config PyNone cluster);
           dcs_reload_config (env_config env
             (history st ++
              [dcs_get_cluster;
               config_set_dynamic_configuration
                 (from_option cluster_config PyNone cluster)]))])),
       set_history
         (history st ++
          [dcs_get_cluster;
           config_set_dynamic_configuration
             (from_option cluster_config PyNone cluster);
           dcs_reload_config (env_config env
             (history st ++
              [dcs_get_cluster;
               config_set_dynamic_configuration
                 (from_option cluster_config PyNone cluster)]))]) st)
    else
      (Ok tt, set_history
                (history st ++
                 [dcs_get_cluster;
                  config_set_dynamic_configuration
                    (from_option cluster_config PyNone cluster)]) st)).
  { unfold load_dynamic_configuration_attempt. step. rewrite Hfetch. step.
    rewrite Hcfg. step. rewrite Hset.
    destruct changed; step; unfold set_history; cbn;
      rewrite <- ?app_assoc; reflexivity. }
  destruct changed.
  - split; [exact Hattempt|]. intros Hpush.
    rewrite load_dynamic_configuration_step, Hattempt, Hpush. reflexivity.
  - rewrite load_dynamic_configuration_step, Hattempt. reflexivity.
Qed.

(** When the fetched cluster has no configuration and either a dynamic
    configuration is held locally or there is no bootstrap section, the
    bootstrap returns after the fetch, having issued nothing else. *)
Theorem bootstrap_nothing_to_do
    (st : State) (cluster : option Cluster) (fuel : nat) :
  env_get_cluster env (history st ++ [dcs_get_cluster]) = Returns cluster →
  has_cluster_config cluster = false →
  let config := env_config env (history st ++ [dcs_get_cluster]) in
  truthy (dynamic_configuration config) = true ∨
  local_configuration config !! "bootstrap" = None →
  load_dynamic_configuration env (S fuel) st =
  (Ok tt, set_history (history st ++ [dcs_get_cluster]) st).
Proof.
  intros Hfetch Hcfg config Hskip.
  rewrite load_dynamic_configuration_step.
  unfold load_dynamic_configuration_attempt. step. rewrite Hfetch. step.
  rewrite Hcfg. step. fold config.
  destruct Hskip as [Hdyn|Hnone].
  - rewrite Hdyn. reflexivity.
  - unfold config_contains. rewrite Hnone.
    rewrite bool_decide_eq_false_2 by (by intros [? ?]).
    by rewrite andb_false_r.
Qed.

(** A bootstrap section without a [dcs] entry is not survived: the
    subscript raises [KeyError], which the loop does not catch; the
    bootstrap ends with it after the one fetch, without warning or retry. *)
Theorem bootstrap_section_without_dcs
    (st : State) (cluster : option Cluster) (section : gmap string PyVal)
    (fuel : nat) :
  env_get_cluster env (history st ++ [dcs_get_cluster]) = Returns cluster →
  has_cluster_config cluster = false →
  let config := env_config env (history st ++ [dcs_get_cluster]) in
  truthy (dynamic_configuration config) = false →
  local_configuration config !! "bootstrap" = Some (PyDict section) →
  section !! "dcs" = None →
  load_dynamic_configuration env (S fuel) st =
  (Raise KeyError, set_history (history st ++ [dcs_get_cluster]) st).
Proof.
  intros Hfetch Hcfg config Hdyn Hboot Hdcs.
  rewrite load_dynamic_configuration_step.
  unfold load_dynamic_configuration_attempt. step. rewrite Hfetch. step.
  rewrite Hcfg. step. fold config. rewrite Hdyn.
  unfold config_contains, config_getitem. rewrite Hboot.
  rewrite bool_decide_eq_true_2 by eauto. step. unfold py_getitem.
  rewrite Hdcs. reflexivity.
Qed.

(** The retry is not for the fetch alone: a [DCSError] raised by
    [dcs.reload_config] after a successful fetch and a changed
    configuration is answered by the same warning and a new fetch. *)
Theorem bootstrap_retries_failed_push
    (st : State) (cluster : option Cluster) (fuel : nat) :
  env_get_cluster env (history st ++ [dcs_get_cluster]) = Returns cluster →
  has_cluster_config cluster = true →
  let h := history st ++
           [dcs_get_cluster;
            config_set_dynamic_configuration
              (from_option cluster_config PyNone cluster)] in
  env_set_dynamic_configuration env h = Returns true →
  let h' := h ++ [dcs_reload_config (env_config env h)] in
  env_dcs_reload_config env h' = Raises DCSError →
  load_dynamic_configuration env (S fuel) st =
  load_dynamic_configuration env fuel
    (set_history (h' ++ [retry_warning]) st).
Proof.
  intros Hfetch Hcfg h Hset h' Hpush.
  destruct (bootstrap_merges_cluster_configuration st cluster true fuel
              Hfetch Hcfg Hset) as [Hattempt _].
  fold h h' in Hattempt.
  rewrite load_dynamic_configuration_step, Hattempt, Hpush. reflexivity.
Qed.

(** An exception of the fetch that is not a [DCSError] is not retried: the
    bootstrap ends with it, without a warning. *)
Theorem bootstrap_other_exceptions_propagate
    (st : State) (e : exn) (fuel : nat) :
  env_get_cluster env (history st ++ [dcs_get_cluster]) = Raises e →
  is_DCSError e = false →
  load_dynamic_configuration env (S fuel) st =
  (Raise e, set_history (history st ++ [dcs_get_cluster]) st).
Proof.
  intros Hfetch He.
  rewrite load_dynamic_configuration_step, (attempt_fetch_raises _ _ _ Hfetch).
  by rewrite He.
Qed.

Lemma attempt_issues (st : State) :
  ∃ k, history (load_dynamic_configuration_attempt env st).2 =
       history st ++ dcs_get_cluster :: k ∧
       Forall (λ e, is_bootstrap_step e = true) k.
Proof.
  unfold load_dynamic_configuration_attempt.
  unfold mbind at 1, M_bind at 1, call at 1. cbn zeta.
  destruct (env_get_cluster env _) as [cluster|e]; cbn [of_answer];
    [|exists []; split; [reflexivity|constructor]].
  match goal with |- context [?m (set_history ?h st)] =>
    assert (Hrest : maintains (extends_by is_bootstrap_step) m) by maintain;
    destruct (Hrest (set_history h st)) as (k & Hk & Hall) end.
  exists k. split; [|exact Hall]. rewrite Hk. cbn [history set_history].
  by rewrite <- app_assoc.
Qed.

(** On a normal return of the bootstrap, every fetch but the last was
    followed by a warning: it has issued one fetch more than it has logged
    warnings. *)
Theorem bootstrap_warns_once_per_retry (fuel : nat) :
  ∀ st st' : State,
    load_dynamic_configuration env fuel st = (Ok tt, st') →
    count_events is_get_cluster (issued st st') =
    S (count_events is_retry_warning (issued st st')).
Proof.
  induction fuel as [|fuel IH]; intros st st' Hload; [discriminate|].
  rewrite load_dynamic_configuration_step in Hload.
  destruct (attempt_issues st) as (k & Hk & Hall).
  assert (Hfetches : count_events is_get_cluster k = 0%nat)
    by (apply (count_events_excluded is_bootstrap_step); [by intros []|done]).
  assert (Hwarnings : count_events is_retry_warning k = 0%nat)
    by (apply (count_events_excluded is_bootstrap_step); [by intros []|done]).
  destruct (load_dynamic_configuration_attempt env st) as [[[]|e|] st1];
    cbn [snd] in Hk; [| |discriminate].
  - injection Hload as <-. rewrite (issued_app _ _ _ Hk).
    change (dcs_get_cluster :: k) with ([dcs_get_cluster] ++ k).
    rewrite !count_events_app, Hfetches, Hwarnings. reflexivity.
  - destruct (is_DCSError e); [|discriminate].
    pose proof (load_dynamic_configuration_history env fuel
                  (set_history (history st1 ++ [retry_warning]) st1))
      as [k' Hk'].
    rewrite Hload in Hk'. cbn [snd history set_history] in Hk'.
    apply IH in Hload. unfold issued in Hload at 1 2.
    rewrite Hk' in Hload. cbn [history set_history] in Hload.
    rewrite drop_app_length in Hload.
    erewrite (issued_app st st')
      by (rewrite Hk', Hk, <- !app_assoc; reflexivity).
    change (dcs_get_cluster :: k) with ([dcs_get_cluster] ++ k).
    rewrite !count_events_app, Hfetches, Hwarnings, Hload. cbn. lia.
Qed.

End BootstrapMore.

(** ** Shutdown, again *)

Section ShutdownMore.

Variable env : Env.

(** The shutdown sequence does not go past a failure: if the shutdown of
    the status API raises, the HA collaborator is not asked and nothing is
    stopped or deleted; if the stop of the datastore raises, the leader key
    is not deleted.  The exception is that of the sequence. *)
Theorem shutdown_stops_at_first_failure (st : State) (e : exn) :
  (env_api_shutdown env (history st ++ [api_shutdown]) = Raises e →
   main_finally env st =
   (Raise e, set_history (history st ++ [api_shutdown]) st)) ∧
  (env_api_shutdown env (history st ++ [api_shutdown]) = Returns tt →
   env_is_paused env (history st ++ [api_shutdown; ha_is_paused])
   = Returns false →
   env_postgresql_stop env
     (history st ++ [api_shutdown; ha_is_paused; postgresql_stop false])
   = Raises e →
   main_finally env st =
   (Raise e, set_history
               (history st ++ [api_shutdown; ha_is_paused;
                               postgresql_stop false]) st)).
Proof.
  split.
  - intros Hapi. unfold main_finally. step. rewrite Hapi. reflexivity.
  - intros Hapi Hpaused Hstop. unfold main_finally. step. rewrite Hapi.
    step. rewrite Hpaused. step. rewrite Hstop. reflexivity.
Qed.

Lemma main_finally_issues (st : State) :
  let k := issued st (main_finally env st).2 in
  count_events is_api_shutdown k = 1%nat ∧
  (count_events is_postgresql_stop k ≤ 1)%nat ∧
  (count_events is_delete_leader k ≤ 1)%nat.
Proof.
  unfold main_finally, issued. step.
  destruct (env_api_shutdown env _) as [[]|e]; step;
    [|rewrite drop_app_length; cbn; lia].
  destruct (env_is_paused env _) as [[|]|e]; step;
    try (rewrite drop_app_length; cbn; lia).
  destruct (env_postgresql_stop env _) as [[]|e]; step;
    try (rewrite drop_app_length; cbn; lia).
Qed.

Lemma run_maintains (fuel : nat) :
  maintains (extends_by (λ e, negb (is_shutdown_call e))) (run env fuel).
Proof.
  unfold run. maintain. intros st.
  destruct (run_loop_maintains env fuel st) as (_ & k & Hk & Hall).
  exists k. split; [exact Hk|].
  eapply Forall_impl; [exact Hall|]. by intros [].
Qed.

(** When [run] ends, by returning or by any exception, [main] shuts the
    status API down exactly once, stops the datastore at most once and
    deletes the leader key at most once, counting everything issued since
    [main] began. *)
Theorem main_shuts_down_once (fuel : nat) (st st1 : State) (r : outcome unit) :
  run env fuel st = (r, st1) → r ≠ OutOfFuel →
  let k := issued st (main env fuel st).2 in
  count_events is_api_shutdown k = 1%nat ∧
  (count_events is_postgresql_stop k ≤ 1)%nat ∧
  (count_events is_delete_leader k ≤ 1)%nat.
Proof.
  intros Hrun Hr.
  destruct (main_runs_shutdown env fuel st st1 r Hrun Hr) as [r' Hmain].
  rewrite Hmain. cbn [snd].
  destruct (run_maintains fuel st) as (k1 & Hk1 & Hall).
  rewrite Hrun in Hk1. cbn [snd] in Hk1.
  pose proof (main_finally_issues st1) as Hfin. cbn zeta in Hfin.
  assert (Hgrow : ∃ k2, history (main_finally env st1).2 = history st1 ++ k2).
  { assert (H : maintains (extends_by (λ _, true)) (main_finally env))
      by (unfold main_finally; maintain).
    destruct (H st1) as (k2 & Hk2 & _). eauto. }
  destruct Hgrow as [k2 Hk2].
  rewrite (issued_app _ _ _ Hk2) in Hfin.
  erewrite (issued_app st) by (rewrite Hk2, Hk1, <- app_assoc; reflexivity).
  rewrite !count_events_app.
  rewrite (count_events_excluded (λ e, negb (is_shutdown_call e))
             is_api_shutdown k1) by first [exact Hall | by intros []].
  rewrite (count_events_excluded (λ e, negb (is_shutdown_call e))
             is_postgresql_stop k1) by first [exact Hall | by intros []].
  rewrite (count_events_excluded (λ e, negb (is_shutdown_call e))
             is_delete_leader k1) by first [exact Hall | by intros []].
  exact Hfin.
Qed.

(** How [main] ends, given how [run] and the shutdown sequence end: a
    [KeyboardInterrupt] out of [run] is swallowed, any other exception of
    [run] (the [SystemExit] of the SIGTERM handler among them) is raised
    again once the shutdown sequence has returned, and an exception of the
    shutdown sequence takes the place of whatever [run] ended with. *)
Theorem main_outcome
    (fuel : nat) (st st1 st2 : State) (r : outcome unit) (r2 : outcome unit) :
  run env fuel st = (r, st1) → r ≠ OutOfFuel →
  main_finally env st1 = (r2, st2) →
  main env fuel st =
  (match r2 with
   | Ok _ =>
       match r with
       | Raise e => if is_KeyboardInterrupt e then Ok tt else Raise e
       | _ => r
       end
   | _ => r2
   end, st2).
Proof.
  intros Hrun Hr Hfin. unfold main, try_finally, try_except. rewrite Hrun.
  destruct r as [[]|e|]; [| |done].
  - rewrite Hfin. by destruct r2 as [[]| |].
  - destruct (is_KeyboardInterrupt e); cbn; rewrite Hfin;
      by destruct r2 as [[]| |].
Qed.

End ShutdownMore.

(** ** Instances *)

Lemma reload_config_notifies_in_order_witness :
  let config := sample_config (PyDict ∅) in
  reload_config (quiet_env config) (sample_state 0 false) =
  (Ok tt, set_history [dcs_reload_config config;
                       api_reload_config (PyDict ∅);
                       postgresql_reload_config (PyDict ∅)]
            (set_tags example_derived (sample_state 0 false))).
Proof.
  apply (reload_config_notifies_in_order
           (quiet_env (sample_config (PyDict ∅))) (sample_state 0 false)
           example_derived (PyDict ∅) (PyDict ∅)).
  - vm_compute. reflexivity.
  - reflexivity.
  - vm_compute. reflexivity.
  - reflexivity.
  - vm_compute. reflexivity.
  - reflexivity.
Defined.

Lemma reload_config_stops_at_first_failure_witness :
  let config := sample_config (PyDict ∅) in
  let env := sample_env config (flaky_fetch 0) true false false
               (Raises OtherException) (Returns tt) in
  reload_config env (sample_state 0 false) =
  (Ok tt, set_history [dcs_reload_config config;
                       logger ERROR "Failed to reload config_file=postgres0.yml"]
            (set_tags example_derived (sample_state 0 false))).
Proof.
  apply (reload_config_stops_at_first_failure
           (sample_env (sample_config (PyDict ∅)) (flaky_fetch 0) true false
              false (Raises OtherException) (Returns tt))
           (sample_state 0 false) example_derived OtherException).
  - vm_compute. reflexivity.
  - reflexivity.
  - reflexivity.
Defined.

Lemma reload_config_malformed_tags_witness :
  reload_config (quiet_env (tags_only_config (PyList [])))
    (sample_state 0 false) =
  (Ok tt, set_history
            [logger ERROR "Failed to reload config_file=postgres0.yml"]
            (sample_state 0 false)).
Proof.
  apply (reload_config_malformed_tags
           (quiet_env (tags_only_config (PyList []))) (sample_state 0 false)
           (PyList [])).
  - reflexivity.
  - intros d. discriminate.
Defined.

Lemma reload_config_missing_section_witness :
  reload_config (quiet_env example_config) (sample_state 0 false) =
  (Ok tt, set_history [dcs_reload_config example_config;
                       logger ERROR "Failed to reload config_file=postgres0.yml"]
            (set_tags example_derived (sample_state 0 false))).
Proof.
  apply (reload_config_missing_section (quiet_env example_config)
           (sample_state 0 false) example_derived).
  - vm_compute. reflexivity.
  - reflexivity.
  - reflexivity.
Defined.

Lemma run_loop_returns_iff_terminated_witness :
  let env := quiet_env example_config in
  run_loop env 5 (set_received_sigterm true (sample_state 0 false)) =
    (Ok tt, set_received_sigterm true (sample_state 0 false)) ∧
  (run_loop env 2 (sample_state 0 false)).1 ≠ Ok tt.
Proof.
  split.
  - apply (run_loop_returns_iff_terminated (quiet_env example_config) 5
             (set_received_sigterm true (sample_state 0 false))).
    reflexivity.
  - apply (run_loop_returns_iff_terminated (quiet_env example_config) 2
             (sample_state 0 false)).
    reflexivity.
Defined.

Lemma sighup_deliveries_coalesce_witness :
  let env := quiet_env (sample_config (PyDict ∅)) in
  let st := sample_state 0 false in
  let st1 := deliver sighup_handler 3 st in
  let st' := (run_sighup env st1).2 in
  received_sighup st' = false ∧
  count_events is_reload_local_configuration (issued st1 st') = 1%nat ∧
  run_sighup env st = (Ok tt, st).
Proof.
  intros env st st1 st'.
  destruct (sighup_deliveries_coalesce env st 2) as (Hflag & Hcount & Hclear).
  split; [exact Hflag|]. split; [exact Hcount|]. apply Hclear. reflexivity.
Defined.

Lemma tick_failures_end_the_loop_witness :
  let env := raising (fail_on (λ e, is_reload_local_configuration e
                                    || is_run_cycle e) OtherException)
               (quiet_env example_config) in
  run_loop env 1 (sample_state 0 true) =
    (Raise OtherException,
     set_history [config_reload_local_configuration] (sample_state 0 false)) ∧
  run_loop env 1 (sample_state 0 false) =
    (Raise OtherException, set_history [ha_run_cycle] (sample_state 0 false)).
Proof.
  intros env. split.
  - apply (tick_failures_end_the_loop env (sample_state 0 true)
             OtherException 0); reflexivity.
  - apply (tick_failures_end_the_loop env (sample_state 0 false)
             OtherException 0); reflexivity.
Defined.

Lemma quiet_tick_witness :
  let env := without_cluster (quiet_env example_config) in
  run_tick env (sample_state 0 false) =
  schedule_next_run env
    (set_history [ha_run_cycle; logger INFO "no action";
                  postgresql_data_directory_empty; config_save_cache;
                  reap_children] (sample_state 0 false)).
Proof.
  apply (quiet_tick (without_cluster (quiet_env example_config))
           (sample_state 0 false) "no action" false); reflexivity.
Defined.

Lemma bootstrap_merges_cluster_configuration_witness :
  let env := sample_env example_config configured_fetch true false false
               (Returns tt) (Returns tt) in
  let st := sample_state 0 false in
  let h := [dcs_get_cluster;
            config_set_dynamic_configuration
              (PyDict (<["ttl" := PyInt 30]> ∅))] in
  let h' := h ++ [dcs_reload_config example_config] in
  load_dynamic_configuration_attempt env st =
  (of_answer (env_dcs_reload_config env h'), set_history h' st) ∧
  (env_dcs_reload_config env h' = Returns tt →
   load_dynamic_configuration env 1 st = (Ok tt, set_history h' st)).
Proof.
  apply (bootstrap_merges_cluster_configuration
           (sample_env example_config configured_fetch true false false
              (Returns tt) (Returns tt))
           (sample_state 0 false)
           (Some (mkCluster (PyDict (<["ttl" := PyInt 30]> ∅)))) true 0).
  - reflexivity.
  - vm_compute. reflexivity.
  - reflexivity.
Defined.

Lemma bootstrap_nothing_to_do_witness :
  load_dynamic_configuration (quiet_env example_config) 1 (sample_state 0 false) =
  (Ok tt, set_history [dcs_get_cluster] (sample_state 0 false)).
Proof.
  apply (bootstrap_nothing_to_do (quiet_env example_config)
           (sample_state 0 false) None 0).
  - reflexivity.
  - reflexivity.
  - right. reflexivity.
Defined.

Lemma bootstrap_section_without_dcs_witness :
  let config := mkConfig (<["bootstrap" := PyDict ∅]> ∅) (PyDict ∅)
                  "postgres0.yml" in
  load_dynamic_configuration (quiet_env config) 1 (sample_state 0 false) =
  (Raise KeyError, set_history [dcs_get_cluster] (sample_state 0 false)).
Proof.
  apply (bootstrap_section_without_dcs
           (quiet_env (mkConfig (<["bootstrap" := PyDict ∅]> ∅) (PyDict ∅)
                         "postgres0.yml"))
           (sample_state 0 false) None ∅ 0).
  - reflexivity.
  - reflexivity.
  - vm_compute. reflexivity.
  - reflexivity.
  - reflexivity.
Defined.

Lemma bootstrap_retries_failed_push_witness :
  let env := sample_env example_config configured_fetch true false false
               (Raises DCSError) (Returns tt) in
  let st := sample_state 0 false in
  load_dynamic_configuration env 1 st =
  load_dynamic_configuration env 0
    (set_history [dcs_get_cluster;
                  config_set_dynamic_configuration
                    (PyDict (<["ttl" := PyInt 30]> ∅));
                  dcs_reload_config example_config;
                  retry_warning] st).
Proof.
  apply (bootstrap_retries_failed_push
           (sample_env example_config configured_fetch true false false
              (Raises DCSError) (Returns tt))
           (sample_state 0 false)
           (Some (mkCluster (PyDict (<["ttl" := PyInt 30]> ∅)))) 0).
  - reflexivity.
  - vm_compute. reflexivity.
  - reflexivity.
  - reflexivity.
Defined.

Lemma bootstrap_other_exceptions_propagate_witness :
  let env := raising (fail_on is_get_cluster OtherException)
               (quiet_env example_config) in
  load_dynamic_configuration env 3 (sample_state 0 false) =
  (Raise OtherException, set_history [dcs_get_cluster] (sample_state 0 false)).
Proof.
  apply (bootstrap_other_exceptions_propagate
           (raising (fail_on is_get_cluster OtherException)
              (quiet_env example_config))
           (sample_state 0 false) OtherException 2); reflexivity.
Defined.

Lemma bootstrap_warns_once_per_retry_witness :
  let env := sample_env example_config (flaky_fetch 2) true false false
               (Returns tt) (Returns tt) in
  let st := sample_state 0 false in
  let st' := (load_dynamic_configuration env 3 st).2 in
  count_events is_get_cluster (issued st st') =
  S (count_events is_retry_warning (issued st st')).
Proof.
  apply (bootstrap_warns_once_per_retry
           (sample_env example_config (flaky_fetch 2) true false false
              (Returns tt) (Returns tt)) 3).
  vm_compute. reflexivity.
Defined.

Lemma shutdown_stops_at_first_failure_witness :
  main_finally
    (raising (fail_on is_api_shutdown OtherException) (quiet_env example_config))
    (sample_state 0 false) =
    (Raise OtherException, set_history [api_shutdown] (sample_state 0 false)) ∧
  main_finally
    (raising (fail_on is_postgresql_stop OtherException)
       (quiet_env example_config))
    (sample_state 0 false) =
    (Raise OtherException,
     set_history [api_shutdown; ha_is_paused; postgresql_stop false]
       (sample_state 0 false)).
Proof.
  split.
  - apply (shutdown_stops_at_first_failure
             (raising (fail_on is_api_shutdown OtherException)
                (quiet_env example_config))
             (sample_state 0 false) OtherException).
    reflexivity.
  - apply (shutdown_stops_at_first_failure
             (raising (fail_on is_postgresql_stop OtherException)
                (quiet_env example_config))
             (sample_state 0 false) OtherException); reflexivity.
Defined.

Lemma main_shuts_down_once_witness :
  let env := raising (fail_on is_sleep SystemExit)
               (without_cluster (quiet_env example_config)) in
  let st := sample_state 0 false in
  let k := issued st (main env 1 st).2 in
  count_events is_api_shutdown k = 1%nat ∧
  (count_events is_postgresql_stop k ≤ 1)%nat ∧
  (count_events is_delete_leader k ≤ 1)%nat.
Proof.
  intros env st.
  apply (main_shuts_down_once env 1 st (run env 1 st).2 (Raise SystemExit)).
  - vm_compute. reflexivity.
  - discriminate.
Defined.

Lemma main_outcome_witness :
  let env := raising (fail_on is_sleep SystemExit)
               (without_cluster (quiet_env example_config)) in
  let st := sample_state 0 false in
  main env 1 st =
  (Raise SystemExit, (main_finally env (run env 1 st).2).2).
Proof.
  intros env st.
  apply (main_outcome env 1 st (run env 1 st).2
           (main_finally env (run env 1 st).2).2 (Raise SystemExit) (Ok tt)).
  - vm_compute. reflexivity.
  - discriminate.
  - vm_compute. reflexivity.
Defined.

Example sigterm_during_sleep_scenario :
  let env := raising (fail_on is_sleep SystemExit)
               (without_cluster (quiet_env example_config)) in
  history (main env 1 (sample_state 0 false)).2 =
  [api_start; ha_run_cycle; logger INFO "no action";
   postgresql_data_directory_empty; config_save_cache; reap_children;
   time_sleep 1000;
   api_shutdown; ha_is_paused; postgresql_stop false; dcs_delete_leader].
Proof. vm_compute. reflexivity. Qed.
